(** * astro-bottomsheet: the panel controller, its helpers and the instance registry

    A shallow embedding of [src/core/bottomSheetInstance.ts],
    [src/core/helpers.ts] and [src/core/BottomSheet.ts].

    Conventions of the embedding.
    - A JavaScript [number] (a pixel measure, a pointer coordinate, a batch
      size, an index) is a rational ([Q]) with exact arithmetic, a whole
      number [n] being [inject_Z n]; rounding of IEEE doubles is not
      modelled.  Time stamps ([Date.now()]) are integers ([Z]).
    - A method of the controller is a function from the controller's data to
      the controller's data.  What a method reads from the browser (screen
      width, layout boxes, the clock) is passed in as an [Env] record.
    - [dispatchEvent] appends the event's name to a log kept with the data.
    - Timers ([setTimeout], [requestIdleCallback]) are pending work kept with
      the data; the host decides when a pending callback runs.
    - The content-slot methods ([setTitle], [setSectionContent], ...) and
      the error display touch neither the size, the flags nor the drag
      state, and are left out. *)

From Stdlib Require Import ZArith QArith Qabs Qminmax Qround Bool String List Lia Lqa.
Import ListNotations.

Local Open Scope Z_scope.

(* ================================================================== *)
(** ** bottomSheetInstance.ts *)

Module Registry.
Section Slot.

(** The controller class; the registry only stores a reference to it. *)
Variable BottomSheet : Type.

(** [let bottomSheetInstance: BottomSheet | null = null;] *)
Definition Slot : Type := option BottomSheet.

Definition initial : Slot := None.

Inductive Error : Type := mkError (message : string).

Definition setBottomSheet (instance : BottomSheet) (_ : Slot) : Slot :=
  Some instance.

Definition getBottomSheet (slot : Slot) : option BottomSheet := slot.

Definition notInitialized : Error :=
  mkError "BottomSheet no ha sido inicializado. Asegúrate de que el componente BottomSheet.astro esté montado.".

(** [throw] is the left summand. *)
Definition getBottomSheetOrThrow (slot : Slot) : Error + BottomSheet :=
  match slot with
  | None => inl notInitialized
  | Some instance => inr instance
  end.

Definition isBottomSheetInitialized (slot : Slot) : bool :=
  match slot with
  | None => false
  | Some _ => true
  end.

Definition clearBottomSheet (_ : Slot) : Slot := None.

(** The two calls that write the slot, and a program of such calls. *)
Inductive Call : Type :=
| CallSet (instance : BottomSheet)
| CallClear.

Definition call (c : Call) (slot : Slot) : Slot :=
  match c with
  | CallSet instance => setBottomSheet instance slot
  | CallClear => clearBottomSheet slot
  end.

Definition calls (cs : list Call) (slot : Slot) : Slot :=
  fold_left (fun acc c => call c acc) cs slot.

Definition isClear (c : Call) : bool :=
  match c with CallClear => true | CallSet _ => false end.

End Slot.
End Registry.

(* ================================================================== *)
(** ** helpers.ts *)

Module Helpers.

(** [window.screen.width < 768] *)
Definition isMobile (screenWidth : Z) : bool := screenWidth <? 768.

(** *** hold

    [timer] is the closure variable of [hold]; a pending timer remembers
    the event it will hand to [fn].  [fire] is the timer's callback; it
    is run by the event loop only while the timer is pending. *)
Section Hold.
Variables Ev St : Type.
Variable fn : Ev -> St -> St.

Definition Timer : Type := option Ev.

(** "Evita reiniciar si ya esta contando" *)
Definition start (e : Ev) (timer : Timer) : Timer :=
  match timer with
  | Some _ => timer
  | None => Some e
  end.

Definition cancel (timer : Timer) : Timer := None.

Definition fire (timer : Timer) (st : St) : Timer * St :=
  match timer with
  | Some e => (None, fn e st)
  | None => (None, st)
  end.
End Hold.

(** *** processBatchAsync

    [batchSize] and the indices are numbers, whole or not.  [callback] is
    observed through the list of its invocations, oldest first; [items[i]]
    is an element only when [i] is a whole number from 0 to the last
    index, and [undefined], here [None], otherwise. *)
Section Batch.
Variable T : Type.

Definition Invocation : Type := (option T * Q)%type.

Record Batch : Type := mkBatch {
  currentIndex : Q;
  invoked : list Invocation;
  (** whether [processBatch] is waiting in the host's queue *)
  scheduled : bool
}.

Definition isWhole (i : Q) : bool := Qeq_bool i (inject_Z (Qfloor i)).

Definition itemAt (items : list T) (i : Q) : option T :=
  if isWhole i && Qle_bool 0 i
  then nth_error items (Z.to_nat (Qfloor i))
  else None.

(** How many of [from], [from + 1], [from + 2], ... lie below [endIndex]. *)
Definition roundsBelow (from endIndex : Q) : nat :=
  Z.to_nat (Qceiling (endIndex - from)).

(** [for (let i = from; i < endIndex; i++) callback(items[i], i)], given
    the number of its rounds. *)
Fixpoint forLoop (items : list T) (rounds : nat) (i : Q) : list Invocation :=
  match rounds with
  | O => []
  | S rounds' => (itemAt items i, i) :: forLoop items rounds' (i + 1)%Q
  end.

Definition processBatch (items : list T) (batchSize : Q) (b : Batch) : Batch :=
  let size := inject_Z (Z.of_nat (length items)) in
  let endIndex := Qmin (currentIndex b + batchSize)%Q size in
  let done := forLoop items (roundsBelow (currentIndex b) endIndex) (currentIndex b) in
  {| currentIndex := endIndex;
     invoked := invoked b ++ done;
     scheduled := negb (Qle_bool size endIndex) |}.

(** State right after the call of [processBatchAsync]: nothing has run,
    the first batch is queued. *)
Definition processBatchAsync : Batch :=
  {| currentIndex := 0%Q; invoked := []; scheduled := true |}.

(** The host runs queued batches one after the other; [batches] bounds
    how many it gets to run. *)
Fixpoint runQueue (items : list T) (batchSize : Q) (batches : nat) (b : Batch) : Batch :=
  match batches with
  | O => b
  | S batches' =>
      if scheduled b
      then runQueue items batchSize batches' (processBatch items batchSize b)
      else b
  end.

(** What the claim expects to have been invoked once [upto] items are done. *)
Definition inOrder (items : list T) (upto : nat) : list Invocation :=
  map (fun i => (nth_error items i, inject_Z (Z.of_nat i))) (seq 0 upto).

(** A batch state in which exactly the first [c] items are done, in order. *)
Definition upTo (items : list T) (c : nat) (b : Batch) : Prop :=
  currentIndex b = inject_Z (Z.of_nat c) /\ invoked b = inOrder items c.

End Batch.

Arguments currentIndex {T} _.
Arguments invoked {T} _.
Arguments scheduled {T} _.
Arguments mkBatch {T} _ _ _.
Arguments processBatchAsync {T}.
Arguments start {Ev} _ _.
Arguments cancel {Ev} _.
Arguments fire {Ev St} _ _ _.

(** *** debounce

    [timeout] is the closure variable of [debounce]: a pending timer
    remembers the arguments (and [this]) its callback [later] will pass to
    [func].  [func] is observed through the list of its invocations, oldest
    first. *)
Section Debounce.
Variable Args : Type.

Record Debounced : Type := mkDebounced {
  timeout : option Args;
  applied : list Args
}.

(** State right after [debounce(func, wait)] returned. *)
Definition debounce : Debounced := {| timeout := None; applied := [] |}.

(** A call of the returned function: [clearTimeout] the pending timer if
    there is one, then [timeout = setTimeout(later, wait)]. *)
Definition debounced (args : Args) (d : Debounced) : Debounced :=
  let d := match timeout d with
           | Some _ => {| timeout := None; applied := applied d |}
           | None => d
           end in
  {| timeout := Some args; applied := applied d |}.

(** The timer's callback, run by the host only while the timer is pending. *)
Definition later (d : Debounced) : Debounced :=
  match timeout d with
  | Some args => {| timeout := None; applied := applied d ++ [args] |}
  | None => d
  end.

End Debounce.

Arguments timeout {Args} _.
Arguments applied {Args} _.
Arguments mkDebounced {Args} _ _.
Arguments debounce {Args}.
Arguments debounced {Args} _ _.
Arguments later {Args} _.

End Helpers.

(* ================================================================== *)
(** ** BottomSheet.ts: the data *)

Module Sheet.

Local Open Scope Q_scope.

(** Comparisons of numbers, as the tests of the source need them. *)
Definition Qltb (a b : Q) : bool := negb (Qle_bool b a).
Definition Qgtb (a b : Q) : bool := Qltb b a.

(** *** DOM elements met by the gesture classifier

    An element carries what the classifier reads from it and a pointer to
    its parent; [nodeId] is the element's identity ([===]). *)
#[warnings="-register-all"]
Inductive HTMLElement : Type := mkElement {
  nodeId : nat;
  localName : string;
  idAttr : string;
  roleAttr : string;
  classNames : list string;
  dataNoDrag : bool;
  (** [getComputedStyle(el).overflowY] *)
  overflowY : string;
  scrollTop : Q;
  scrollHeight : Q;
  clientHeight : Q;
  parentElement : option HTMLElement
}.

Definition hasClass (c : string) (l : list string) : bool :=
  existsb (String.eqb c) l.

(** [el.closest(selector)], the selector given as a test on one element:
    the element itself or its nearest ancestor that passes. *)
Fixpoint closest (matches : HTMLElement -> bool) (el : HTMLElement)
  : option HTMLElement :=
  if matches el then Some el
  else match parentElement el with
       | Some p => closest matches p
       | None => None
       end.

Definition isSome {A : Type} (o : option A) : bool :=
  match o with Some _ => true | None => false end.

(** ['a, button, input, textarea, select, [role="button"], .link,
    .no-drag, [data-no-drag]'] *)
Definition interactiveSelector (el : HTMLElement) : bool :=
  hasClass (localName el) ["a"; "button"; "input"; "textarea"; "select"]%string
  || String.eqb (roleAttr el) "button"
  || hasClass "link" (classNames el)
  || hasClass "no-drag" (classNames el)
  || dataNoDrag el.

Definition byId (id : string) (el : HTMLElement) : bool :=
  String.eqb (idAttr el) id.

(** *** Pointer events *)
Record Touch : Type := mkTouch {
  touchTarget : option HTMLElement;
  touchClientX : Q;
  touchClientY : Q
}.

(** A touch event is given with [touches[0]]. *)
Inductive Event : Type :=
| MouseEvent (target : option HTMLElement) (clientX clientY : Q)
| TouchEvent (target : option HTMLElement) (touch0 : Touch)
| OtherEvent (target : option HTMLElement).

Definition eventTarget (e : Event) : option HTMLElement :=
  match e with
  | MouseEvent t _ _ => t
  | TouchEvent t _ => t
  | OtherEvent t => t
  end.

(** *** Inline size of the panel: [""], ["<n>px"] or ["<n>%"] *)
Inductive CssSize : Type :=
| CssNone
| CssPx (n : Q)
| CssPercent (n : Q).

(** *** The controller's fields *)
Record Options : Type := mkOptions {
  maxSize : Q;
  minSize : Q;
  closeOnOverlayClick : bool
}.

Record State : Type := mkState {
  startPoint : Q;
  startSize : Q;
  prevPoint : Q;
  lastDiff : Q;
  isDragging : bool;
  isOpen : bool;
  isMinimized : bool;
  isMaximized : bool;
  isUpdating : bool;
  dragStart : Z;
  hasMoved : bool;
  totalMovement : Q
}.

(** What the controller writes in the document: the panel's class list
    and inline size, the class list of [#bottomsheet-content] and the
    inline height of [#bottomsheet-content-wrapper] (each [None] when the
    panel has no such child), and the class list of [document.body]. *)
Record Dom : Type := mkDom {
  panelClasses : list string;
  styleHeight : CssSize;
  styleWidth : CssSize;
  contentClasses : option (list string);
  wrapperHeight : option CssSize;
  bodyClasses : list string
}.

Record BottomSheet : Type := mkBottomSheet {
  (** [nodeId] of [this.panel] *)
  panel : nat;
  options : Options;
  state : State;
  dom : Dom;
  (** the [timer] of [this._holdAction] *)
  holdTimer : Helpers.Timer Event;
  (** names of the events dispatched on the panel, oldest first *)
  dispatched : list string;
  (** pending [setTimeout(() => classList.remove("bottomsheet-full"), 300)] *)
  cleanups : nat
}.

(** What a method reads from the browser when it runs. *)
Record Env : Type := mkEnv {
  screenWidth : Z;
  (** [Date.now()] *)
  now : Z;
  (** [this.panel.offsetHeight], [this.panel.offsetWidth] *)
  offsetHeight : Q;
  offsetWidth : Q;
  (** [this.container.clientHeight] *)
  containerClientHeight : Q;
  (** [clientHeight] of [#bottomsheet-header] and of
      [#bottomsheet-drag-handle], [None] when the child is missing *)
  headerClientHeight : option Q;
  dragHandleClientHeight : option Q;
  (** [offsetTop] of [#bottomsheet-content-wrapper] *)
  wrapperOffsetTop : Q
}.

Definition isMobile (env : Env) : bool := Helpers.isMobile (screenWidth env).

(** *** Field updates *)
Definition withOptions (f : Options -> Options) (b : BottomSheet) : BottomSheet :=
  mkBottomSheet (panel b) (f (options b)) (state b) (dom b)
                (holdTimer b) (dispatched b) (cleanups b).
Definition withState (f : State -> State) (b : BottomSheet) : BottomSheet :=
  mkBottomSheet (panel b) (options b) (f (state b)) (dom b)
                (holdTimer b) (dispatched b) (cleanups b).
Definition withDom (f : Dom -> Dom) (b : BottomSheet) : BottomSheet :=
  mkBottomSheet (panel b) (options b) (state b) (f (dom b))
                (holdTimer b) (dispatched b) (cleanups b).
Definition withHoldTimer (t : Helpers.Timer Event) (b : BottomSheet) : BottomSheet :=
  mkBottomSheet (panel b) (options b) (state b) (dom b)
                t (dispatched b) (cleanups b).
Definition withCleanups (n : nat) (b : BottomSheet) : BottomSheet :=
  mkBottomSheet (panel b) (options b) (state b) (dom b)
                (holdTimer b) (dispatched b) n.

Definition setMaxSizeOpt (v : Q) (o : Options) : Options :=
  mkOptions v (minSize o) (closeOnOverlayClick o).
Definition setMinSizeOpt (v : Q) (o : Options) : Options :=
  mkOptions (maxSize o) v (closeOnOverlayClick o).

Definition setStartPoint (v : Q) (s : State) : State :=
  mkState v (startSize s) (prevPoint s) (lastDiff s) (isDragging s) (isOpen s)
    (isMinimized s) (isMaximized s) (isUpdating s) (dragStart s) (hasMoved s)
    (totalMovement s).
Definition setStartSize (v : Q) (s : State) : State :=
  mkState (startPoint s) v (prevPoint s) (lastDiff s) (isDragging s) (isOpen s)
    (isMinimized s) (isMaximized s) (isUpdating s) (dragStart s) (hasMoved s)
    (totalMovement s).
Definition setPrevPoint (v : Q) (s : State) : State :=
  mkState (startPoint s) (startSize s) v (lastDiff s) (isDragging s) (isOpen s)
    (isMinimized s) (isMaximized s) (isUpdating s) (dragStart s) (hasMoved s)
    (totalMovement s).
Definition setLastDiff (v : Q) (s : State) : State :=
  mkState (startPoint s) (startSize s) (prevPoint s) v (isDragging s) (isOpen s)
    (isMinimized s) (isMaximized s) (isUpdating s) (dragStart s) (hasMoved s)
    (totalMovement s).
Definition setIsDragging (v : bool) (s : State) : State :=
  mkState (startPoint s) (startSize s) (prevPoint s) (lastDiff s) v (isOpen s)
    (isMinimized s) (isMaximized s) (isUpdating s) (dragStart s) (hasMoved s)
    (totalMovement s).
Definition setIsOpen (v : bool) (s : State) : State :=
  mkState (startPoint s) (startSize s) (prevPoint s) (lastDiff s) (isDragging s) v
    (isMinimized s) (isMaximized s) (isUpdating s) (dragStart s) (hasMoved s)
    (totalMovement s).
Definition setIsMinimized (v : bool) (s : State) : State :=
  mkState (startPoint s) (startSize s) (prevPoint s) (lastDiff s) (isDragging s)
    (isOpen s) v (isMaximized s) (isUpdating s) (dragStart s) (hasMoved s)
    (totalMovement s).
Definition setIsMaximized (v : bool) (s : State) : State :=
  mkState (startPoint s) (startSize s) (prevPoint s) (lastDiff s) (isDragging s)
    (isOpen s) (isMinimized s) v (isUpdating s) (dragStart s) (hasMoved s)
    (totalMovement s).
Definition setIsUpdating (v : bool) (s : State) : State :=
  mkState (startPoint s) (startSize s) (prevPoint s) (lastDiff s) (isDragging s)
    (isOpen s) (isMinimized s) (isMaximized s) v (dragStart s) (hasMoved s)
    (totalMovement s).
Definition setDragStart (v : Z) (s : State) : State :=
  mkState (startPoint s) (startSize s) (prevPoint s) (lastDiff s) (isDragging s)
    (isOpen s) (isMinimized s) (isMaximized s) (isUpdating s) v (hasMoved s)
    (totalMovement s).
Definition setHasMoved (v : bool) (s : State) : State :=
  mkState (startPoint s) (startSize s) (prevPoint s) (lastDiff s) (isDragging s)
    (isOpen s) (isMinimized s) (isMaximized s) (isUpdating s) (dragStart s) v
    (totalMovement s).
Definition setTotalMovement (v : Q) (s : State) : State :=
  mkState (startPoint s) (startSize s) (prevPoint s) (lastDiff s) (isDragging s)
    (isOpen s) (isMinimized s) (isMaximized s) (isUpdating s) (dragStart s)
    (hasMoved s) v.

Definition setPanelClasses (v : list string) (d : Dom) : Dom :=
  mkDom v (styleHeight d) (styleWidth d) (contentClasses d) (wrapperHeight d)
    (bodyClasses d).
Definition setStyleHeight (v : CssSize) (d : Dom) : Dom :=
  mkDom (panelClasses d) v (styleWidth d) (contentClasses d) (wrapperHeight d)
    (bodyClasses d).
Definition setStyleWidth (v : CssSize) (d : Dom) : Dom :=
  mkDom (panelClasses d) (styleHeight d) v (contentClasses d) (wrapperHeight d)
    (bodyClasses d).
Definition setContentClasses (v : option (list string)) (d : Dom) : Dom :=
  mkDom (panelClasses d) (styleHeight d) (styleWidth d) v (wrapperHeight d)
    (bodyClasses d).
Definition setWrapperHeight (v : option CssSize) (d : Dom) : Dom :=
  mkDom (panelClasses d) (styleHeight d) (styleWidth d) (contentClasses d) v
    (bodyClasses d).
Definition setBodyClasses (v : list string) (d : Dom) : Dom :=
  mkDom (panelClasses d) (styleHeight d) (styleWidth d) (contentClasses d)
    (wrapperHeight d) v.

(** *** [classList] *)
Definition classAdd (c : string) (l : list string) : list string :=
  if hasClass c l then l else l ++ [c].
Definition classRemove (c : string) (l : list string) : list string :=
  filter (fun x => negb (String.eqb c x)) l.

Definition panelAdd (c : string) : BottomSheet -> BottomSheet :=
  withDom (fun d => setPanelClasses (classAdd c (panelClasses d)) d).
Definition panelRemove (c : string) : BottomSheet -> BottomSheet :=
  withDom (fun d => setPanelClasses (classRemove c (panelClasses d)) d).
(** [panelContent?.classList.add/remove] *)
Definition contentAdd (c : string) : BottomSheet -> BottomSheet :=
  withDom (fun d => setContentClasses (option_map (classAdd c) (contentClasses d)) d).
Definition contentRemove (c : string) : BottomSheet -> BottomSheet :=
  withDom (fun d => setContentClasses (option_map (classRemove c) (contentClasses d)) d).
Definition bodyAdd (c : string) : BottomSheet -> BottomSheet :=
  withDom (fun d => setBodyClasses (classAdd c (bodyClasses d)) d).
Definition bodyRemove (c : string) : BottomSheet -> BottomSheet :=
  withDom (fun d => setBodyClasses (classRemove c (bodyClasses d)) d).

Definition height (v : CssSize) : BottomSheet -> BottomSheet :=
  withDom (setStyleHeight v).
Definition width (v : CssSize) : BottomSheet -> BottomSheet :=
  withDom (setStyleWidth v).

Definition _dispatchEvent (name : string) (b : BottomSheet) : BottomSheet :=
  mkBottomSheet (panel b) (options b) (state b) (dom b)
                (holdTimer b) (dispatched b ++ [name]) (cleanups b).

(** [setTimeout(() => this.panel.classList.remove("bottomsheet-full"), 300)] *)
Definition scheduleCleanup (b : BottomSheet) : BottomSheet :=
  withCleanups (S (cleanups b)) b.

(* ================================================================ *)
(** ** BottomSheet.ts: the methods *)

(** Statements in sequence. *)
Local Notation "b |> f" := (f b) (at level 45, left associativity, only parsing).

(** [constructor]: the defaults, overridden by the fields the caller gives
    ([...options]); [d] is the document as the constructor finds it. *)
Record OptionsArg : Type := mkOptionsArg {
  argMaxSize : option Q;
  argMinSize : option Q;
  argCloseOnOverlayClick : option bool
}.

Definition orDefault {A : Type} (o : option A) (d : A) : A :=
  match o with Some v => v | None => d end.

Definition constructor (panelId : nat) (arg : OptionsArg) (d : Dom) : BottomSheet :=
  {| panel := panelId;
     options := {| maxSize := orDefault (argMaxSize arg) 500;
                   minSize := orDefault (argMinSize arg) 40;
                   closeOnOverlayClick := orDefault (argCloseOnOverlayClick arg) false |};
     state := {| startPoint := 0; startSize := 0; prevPoint := 0; lastDiff := 0;
                 isDragging := false; isOpen := false; isMinimized := false;
                 isMaximized := false; isUpdating := false; dragStart := 0%Z;
                 hasMoved := false; totalMovement := 0 |};
     dom := d;
     holdTimer := None;
     dispatched := [];
     cleanups := O |}.

Definition showPanelContent (b : BottomSheet) : BottomSheet :=
  b |> panelAdd "bottomsheet-open"
    |> panelRemove "bottomsheet-updating"
    |> panelRemove "bottomsheet-minimized"
    |> width CssNone
    |> height CssNone
    |> withState (setIsOpen true)
    |> withState (setIsMinimized false)
    |> withState (setIsUpdating false).

Definition hidePanelContent (b : BottomSheet) : BottomSheet :=
  b |> withState (setIsMinimized true)
    |> withState (setIsMaximized false)
    |> panelAdd "bottomsheet-minimized"
    |> panelRemove "bottomsheet-full".

Definition setMaxSize (env : Env) (b : BottomSheet) : BottomSheet :=
  let b := b |> showPanelContent |> withState (setIsMaximized true) in
  let b := if isMobile env
           then b |> height (CssPx (maxSize (options b)))
                  |> panelAdd "bottomsheet-full"
           else b |> width (CssPx (maxSize (options b))) in
  b |> _dispatchEvent "bottomsheet:maxsize".

Definition setMinSize (env : Env) (b : BottomSheet) : BottomSheet :=
  let b := hidePanelContent b in
  let b := if isMobile env
           then b |> height (CssPx (minSize (options b))) |> scheduleCleanup
           else b |> width CssNone in
  b |> _dispatchEvent "bottomsheet:minsize".

Definition setMidSize (env : Env) (b : BottomSheet) : BottomSheet :=
  if isMobile env
  then b |> withState (setIsMaximized false)
         |> showPanelContent
         |> height (CssPercent 50)
         |> scheduleCleanup
         |> _dispatchEvent "bottomsheet:midsize"
  else setMaxSize env b.

(** [panelHeader.clientHeight + dragHandle.clientHeight] when both exist *)
Definition measuredMinSize (env : Env) : option Q :=
  match headerClientHeight env, dragHandleClientHeight env with
  | Some h, Some d => Some (h + d)
  | _, _ => None
  end.

Definition remeasureMinSize (env : Env) (b : BottomSheet) : BottomSheet :=
  match measuredMinSize env with
  | Some m => withOptions (setMinSizeOpt m) b
  | None => b
  end.

Definition _updateSizeLimits (env : Env) (b : BottomSheet) : BottomSheet :=
  if isMobile env
  then b |> withOptions (setMaxSizeOpt (containerClientHeight env * 0.95))
         |> remeasureMinSize env
  else b |> withOptions (setMaxSizeOpt 500)
         |> withOptions (setMinSizeOpt 40).

Definition open (env : Env) (b : BottomSheet) : BottomSheet :=
  let b := _updateSizeLimits env b in
  if isOpen (state b) && negb (isUpdating (state b))
  then setMidSize env b
  else b |> withDom (fun d => setWrapperHeight
                                (option_map (fun _ => CssNone) (wrapperHeight d)) d)
         |> showPanelContent
         |> _dispatchEvent "bottomsheet:open".

Definition close (b : BottomSheet) : BottomSheet :=
  b |> panelRemove "bottomsheet-open"
    |> height CssNone
    |> width CssNone
    |> withState (setIsOpen false)
    |> withState (setIsMinimized false)
    |> _dispatchEvent "bottomsheet:close".

Definition minimize (env : Env) (b : BottomSheet) : BottomSheet :=
  if negb (isOpen (state b)) || isMinimized (state b) then b
  else
    let b := b |> hidePanelContent |> withState (setIsMinimized true) in
    let b := if isMobile env
             then b |> height (CssPx (minSize (options b)))
             else b |> width CssNone in
    b |> _dispatchEvent "bottomsheet:minimized".

Definition updatePanel (b : BottomSheet) : BottomSheet :=
  if negb (isOpen (state b)) then b
  else b |> panelAdd "bottomsheet-updating"
         |> withState (setIsUpdating true)
         |> _dispatchEvent "bottomsheet:updating".

(** *** Gesture classifier *)

Definition _isScrollableY (panelId : nat) (el : HTMLElement) : bool :=
  if Nat.eqb (nodeId el) panelId then false
  else (String.eqb (overflowY el) "auto" || String.eqb (overflowY el) "scroll")
       && Qgtb (scrollHeight el) (clientHeight el).

Definition _canScrollYInDirection (panelId : nat) (el : HTMLElement) (delta : Q) : bool :=
  if negb (_isScrollableY panelId el) then false
  else if Qgtb delta 0 then Qgtb (scrollTop el) 5
  else if Qltb delta 0 then Qltb (scrollTop el + clientHeight el) (scrollHeight el)
  else false.

(** The [while (el && el !== this.panel)] loop, from a non-null [el]. *)
Fixpoint ancestorsCanMove (panelId : nat) (el : HTMLElement) (delta : Q) : bool :=
  if Nat.eqb (nodeId el) panelId then false
  else if _canScrollYInDirection panelId el delta then true
  else match parentElement el with
       | Some p => ancestorsCanMove panelId p delta
       | None => false
       end.

Definition _anyScrollableAncestorCanMove
  (panelId : nat) (startEl : option HTMLElement) (delta : Q) : bool :=
  match startEl with
  | Some el => ancestorsCanMove panelId el delta
  | None => false
  end.

Definition _isInteractiveTarget (target : HTMLElement) : bool :=
  isSome (closest interactiveSelector target).

Definition _isDragZone (target : option HTMLElement) : bool :=
  match target with
  | None => false
  | Some t =>
      if _isInteractiveTarget t then false
      else if isSome (closest (byId "bottomsheet-drag-handle") t) then true
      else if isSome (closest (byId "bottomsheet-header") t) then true
      else if isSome (closest (byId "bottomsheet-content") t) then true
      else false
  end.

(** *** Drag lifecycle *)

Definition _onStart (env : Env) (e : Event) (b : BottomSheet) : BottomSheet :=
  let target := match e with
                | MouseEvent t _ _ => t
                | TouchEvent _ touch => touchTarget touch
                | OtherEvent _ => None
                end in
  if isSome target && negb (_isDragZone target) then b
  else
    let b := if isMaximized (state b) then contentRemove "overflow-hidden" b else b in
    let b := b |> withState (setIsDragging true)
               |> withState (setDragStart (now env))
               |> withState (setHasMoved false)
               |> withState (setTotalMovement 0)
               |> showPanelContent in
    let b := if isMobile env
             then
               let p := match e with
                        | TouchEvent _ touch => touchClientY touch
                        | MouseEvent _ _ y => y
                        | OtherEvent _ => 0
                        end in
               b |> withState (setStartPoint p)
                 |> withState (setStartSize (offsetHeight env))
                 |> withState (setPrevPoint p)
             else
               let p := match e with
                        | MouseEvent _ x _ => x
                        | TouchEvent _ touch => touchClientX touch
                        | OtherEvent _ => 0
                        end in
               b |> withState (setStartPoint p)
                 |> withState (setStartSize (offsetWidth env)) in
    b |> bodyAdd "select-none" |> bodyAdd "overflow-hidden".

(** [Math.max(minSize, Math.min(maxSize, newSize))] *)
Definition clampSize (o : Options) (newSize : Q) : Q :=
  Qmax (minSize o) (Qmin (maxSize o) newSize).

(** The part of a move shared by both axes: once the accumulated movement
    passes 5px the gesture counts as a drag. *)
Definition trackMovement (moved : Q) (b : BottomSheet) : BottomSheet :=
  let b := withState (setTotalMovement (totalMovement (state b) + Qabs moved)) b in
  if Qgtb (totalMovement (state b)) 5
  then b |> withState (setHasMoved true) |> panelAdd "bottomsheet-dragging"
  else b.

Definition _onMoveMobile (target : option HTMLElement) (touch : Touch)
  (b : BottomSheet) : BottomSheet :=
  let currentPoint := touchClientY touch in
  let diff := startPoint (state b) - currentPoint in
  let prev := prevPoint (state b) in
  let b := withState (setPrevPoint currentPoint) b in
  let delta := currentPoint - prev in
  let b := trackMovement delta b in
  let b := if Qltb delta 0
           then
             let b := b |> panelAdd "bottomsheet-move-up"
                        |> panelRemove "bottomsheet-move-down" in
             if negb (isMaximized (state b))
             then contentAdd "overflow-hidden" b
             else contentRemove "overflow-hidden" b
           else b |> panelRemove "bottomsheet-move-up"
                  |> panelAdd "bottomsheet-move-down"
                  |> contentRemove "overflow-hidden" in
  if _anyScrollableAncestorCanMove (panel b) target delta
  then withState (setIsDragging false) b
  else
    let newSize := clampSize (options b) (startSize (state b) + diff) in
    height (CssPx newSize) b.

Definition _onMoveDesktop (currentPoint : Q) (b : BottomSheet) : BottomSheet :=
  let diff := startPoint (state b) - currentPoint in
  let moved := diff - lastDiff (state b) in
  let total := totalMovement (state b) + Qabs moved in
  let b := b |> withState (setTotalMovement total)
             |> withState (setLastDiff diff) in
  let b := if Qgtb (totalMovement (state b)) 5
           then b |> withState (setHasMoved true) |> panelAdd "bottomsheet-dragging"
           else b in
  let newSize := clampSize (options b) (startSize (state b) + diff) in
  width (CssPx newSize) b.

Definition _onMove (env : Env) (e : Event) (b : BottomSheet) : BottomSheet :=
  if negb (isDragging (state b)) then b
  else
    let b := match e with
             | TouchEvent target touch =>
                 if isMobile env then _onMoveMobile target touch b else b
             | MouseEvent _ x _ => _onMoveDesktop x b
             | OtherEvent _ => b
             end in
    _dispatchEvent "bottomsheet:dragging" b.

Definition _onEndMobile (env : Env) (b : BottomSheet) : BottomSheet :=
  let b := remeasureMinSize env b in
  let finalSize := offsetHeight env in
  let midThreshold := maxSize (options b) * 0.6 in
  let start := startSize (state b) in
  let b :=
    if (Qltb finalSize start && Qgtb finalSize midThreshold)
       || (Qgtb finalSize start && Qltb finalSize midThreshold)
    then setMidSize env b
    else if Qltb finalSize start && Qltb finalSize midThreshold
    then setMinSize env b
    else setMaxSize env b in
  if isMaximized (state b) then contentRemove "overflow-hidden" b else b.

Definition _onEndDesktop (env : Env) (b : BottomSheet) : BottomSheet :=
  let b := withOptions (setMinSizeOpt 40) b in
  let finalSize := offsetWidth env in
  if Qltb finalSize (startSize (state b))
  then setMinSize env b
  else setMaxSize env b.

Definition _onEnd (env : Env) (b : BottomSheet) : BottomSheet :=
  if negb (isDragging (state b)) then b
  else
    let dragDuration := (now env - dragStart (state b))%Z in
    let hadMovement := hasMoved (state b) in
    let b := b |> withState (setHasMoved false)
               |> withState (setIsDragging false)
               |> panelRemove "bottomsheet-dragging"
               |> bodyRemove "select-none"
               |> bodyRemove "overflow-hidden" in
    if negb hadMovement then b
    else if (500 <? dragDuration)%Z then b
    else if isMobile env then _onEndMobile env b
    else _onEndDesktop env b.

(** The callback of the [ResizeObserver] on the panel. *)
Definition _adjustContentHeight (env : Env) (b : BottomSheet) : BottomSheet :=
  if negb (isMobile env) || isUpdating (state b) then b
  else match wrapperHeight (dom b) with
       | None => b
       | Some _ =>
           withDom (setWrapperHeight
                      (Some (CssPx (offsetHeight env - wrapperOffsetTop env)))) b
       end.

(** *** What can happen to a controller

    The public methods, and the listeners that [_initializeEventListeners]
    installs, each with what it reads from the browser.  A release over
    the panel runs the panel's listener ([_holdAction.cancel]) and then,
    bubbling, the document's ([_onEnd]). *)
Inductive Op : Type :=
| Open (env : Env)
| Close
| Minimize (env : Env)
| UpdatePanel
| SetMinSize (env : Env)
| SetMidSize (env : Env)
| SetMaxSize (env : Env)
(** [mousedown]/[touchstart] on the panel *)
| PanelDown (e : Event)
(** the hold timer's callback *)
| HoldTimeout (env : Env)
(** [mouseup]/[touchend] on the panel *)
| PanelUp (env : Env)
(** [mousemove]/[touchmove] on the document *)
| DocumentMove (env : Env) (e : Event)
(** [mouseup]/[touchend] elsewhere, [mouseleave], [touchcancel] *)
| DocumentEnd (env : Env)
(** [click] on the container *)
| ContainerClick (env : Env) (target : option HTMLElement)
(** [click] on [#bottomsheet-close-btn] *)
| CloseButtonClick
(** the callback of a pending class clean-up *)
| CleanupTimeout
(** the resize observer reports the panel *)
| PanelResized (env : Env).

Definition onContainerClick (env : Env) (target : option HTMLElement)
  (b : BottomSheet) : BottomSheet :=
  let inside := match target with
                | Some t => isSome (closest (byId "bottomsheet") t)
                | None => false
                end in
  if inside then b
  else if closeOnOverlayClick (options b) then close b
  else minimize env b.

Definition step (op : Op) (b : BottomSheet) : BottomSheet :=
  match op with
  | Open env => open env b
  | Close => close b
  | Minimize env => minimize env b
  | UpdatePanel => updatePanel b
  | SetMinSize env => setMinSize env b
  | SetMidSize env => setMidSize env b
  | SetMaxSize env => setMaxSize env b
  | PanelDown e => withHoldTimer (Helpers.start e (holdTimer b)) b
  | HoldTimeout env =>
      let '(timer, b') := Helpers.fire (_onStart env) (holdTimer b) b in
      withHoldTimer timer b'
  | PanelUp env => _onEnd env (withHoldTimer (Helpers.cancel (holdTimer b)) b)
  | DocumentMove env e => _onMove env e b
  | DocumentEnd env => _onEnd env b
  | ContainerClick env target => onContainerClick env target b
  | CloseButtonClick => close b
  | CleanupTimeout =>
      match cleanups b with
      | O => b
      | S n => b |> panelRemove "bottomsheet-full" |> withCleanups n
      end
  | PanelResized env => _adjustContentHeight env b
  end.

Definition run (ops : list Op) (b : BottomSheet) : BottomSheet :=
  fold_left (fun acc op => step op acc) ops b.

(* ================================================================ *)
(** ** Vocabulary of the properties *)

(** The three outcomes of a completed drag. *)
Inductive Tier : Type := ToMin | ToMid | ToMax.

Definition tierEvent (t : Tier) : string :=
  match t with
  | ToMin => "bottomsheet:minsize"
  | ToMid => "bottomsheet:midsize"
  | ToMax => "bottomsheet:maxsize"
  end.

(** The inline size an outcome leaves on the drag axis. *)
Definition tierSize (mobile : bool) (o : Options) (t : Tier) : CssSize :=
  match t with
  | ToMin => if mobile then CssPx (minSize o) else CssNone
  | ToMid => CssPercent 50
  | ToMax => CssPx (maxSize o)
  end.

Definition isToMin (t : Tier) : bool := match t with ToMin => true | _ => false end.
Definition isToMax (t : Tier) : bool := match t with ToMax => true | _ => false end.

(** Height on the vertical (mobile) axis, width on the horizontal one. *)
Definition axisSize (env : Env) (b : BottomSheet) : CssSize :=
  if isMobile env then styleHeight (dom b) else styleWidth (dom b).

(** [after] is [before] snapped to tier [t]: exactly one size event, the
    tier's own, was dispatched; the axis holds the tier's size; the flags
    say which tier it is. *)
Record snapped (env : Env) (t : Tier) (before after : BottomSheet) : Prop := {
  snapEvent : dispatched after = dispatched before ++ [tierEvent t];
  snapSize : axisSize env after = tierSize (isMobile env) (options after) t;
  snapMinimized : isMinimized (state after) = isToMin t;
  snapMaximized : isMaximized (state after) = isToMax t
}.

(** A completed drag: a release while dragging that passes the movement
    gate and the duration gate of [_onEnd]. *)
Record completedDrag (env : Env) (b : BottomSheet) : Prop := {
  gateDragging : isDragging (state b) = true;
  gateMoved : hasMoved (state b) = true;
  gateDuration : (now env - dragStart (state b) <= 500)%Z
}.


(** Nothing about the panel's size was written and nothing dispatched. *)
Record untouched (before after : BottomSheet) : Prop := {
  sameHeight : styleHeight (dom after) = styleHeight (dom before);
  sameWidth : styleWidth (dom after) = styleWidth (dom before);
  sameOptions : options after = options before;
  sameEvents : dispatched after = dispatched before
}.

(** The fields a gesture start initialises. *)
Definition dragFields (b : BottomSheet) : Q * Q * Z * Q * bool :=
  (startPoint (state b), startSize (state b), dragStart (state b),
   totalMovement (state b), hasMoved (state b)).

(** The elements the scroll walk visits: from the start element upwards,
    stopping before the panel. *)
Fixpoint chain (el : HTMLElement) : list HTMLElement :=
  el :: match parentElement el with
        | Some p => chain p
        | None => []
        end.

Fixpoint belowPanel (panelId : nat) (l : list HTMLElement) : list HTMLElement :=
  match l with
  | [] => []
  | el :: rest => if Nat.eqb (nodeId el) panelId then [] else el :: belowPanel panelId rest
  end.

Definition visited (panelId : nat) (startEl : option HTMLElement) : list HTMLElement :=
  match startEl with
  | Some el => belowPanel panelId (chain el)
  | None => []
  end.

Definition scrollableY (el : HTMLElement) : Prop :=
  (overflowY el = "auto"%string \/ overflowY el = "scroll"%string)
  /\ clientHeight el < scrollHeight el.

Definition hasRoom (el : HTMLElement) (delta : Q) : Prop :=
  (0 < delta /\ 5 < scrollTop el)
  \/ (delta < 0 /\ scrollTop el + clientHeight el < scrollHeight el).

(** The tier [_onEndMobile] picks, from the three numbers it compares. *)
Definition verticalTier (finalSize start maxSz : Q) : Tier :=
  let midThreshold := maxSz * 0.6 in
  if (Qltb finalSize start && Qgtb finalSize midThreshold)
     || (Qgtb finalSize start && Qltb finalSize midThreshold)
  then ToMid
  else if Qltb finalSize start && Qltb finalSize midThreshold
  then ToMin
  else ToMax.

(** The tier [_onEndDesktop] picks. *)
Definition horizontalTier (finalSize start : Q) : Tier :=
  if Qltb finalSize start then ToMin else ToMax.

(** The vertical classification in the specification's words: below the
    start and below 60% of the maximum, minimum; below the start and at
    or above 60% of the maximum, mid; at or above the start, maximum. *)
Definition specifiedTier (finalSize start maxSz : Q) : Tier :=
  if Qltb finalSize start
  then if Qltb finalSize (0.6 * maxSz) then ToMin else ToMid
  else ToMax.

(** The two size flags are not set together. *)
Definition flagsExclusive (b : BottomSheet) : Prop :=
  isMaximized (state b) && isMinimized (state b) = false.

(** [hasMoved] is set only once the accumulated movement passed 5px. *)
Definition movedPastNoise (b : BottomSheet) : Prop :=
  hasMoved (state b) = true -> 5 < totalMovement (state b).

(** ** The read-only queries

    [isOpen()], [isMaximized()], [isMinimized()] and [hasMoved()] of the
    class; they share their names with the fields of [state]. *)
Module Query.
Definition isMinimized (b : BottomSheet) : bool := Sheet.isMinimized (state b).
Definition hasMoved (b : BottomSheet) : bool := Sheet.hasMoved (state b).
Definition isMaximized (b : BottomSheet) : bool :=
  Sheet.isOpen (state b) && Sheet.isMaximized (state b).
Definition isOpen (b : BottomSheet) : bool :=
  Sheet.isOpen (state b) && negb (Sheet.isMinimized (state b)).
End Query.

(** ** [on] and [off]

    [_eventListeners] is the only field they touch.  [off] is given with
    the [removeEventListener] calls it makes on the panel, in order. *)
Section Listeners.
Variables Handler ListenerOptions : Type.

Record Registration : Type := mkRegistration {
  regType : string;
  regHandler : Handler;
  regOptions : ListenerOptions
}.

Definition on (type : string) (handler : Handler) (opts : ListenerOptions)
  (_eventListeners : list Registration) : list Registration :=
  _eventListeners ++ [mkRegistration type handler opts].

(** [if (type)]: [null] and the empty string are falsy. *)
Definition truthy (type : option string) : option string :=
  match type with
  | Some t => if String.eqb t "" then None else Some t
  | None => None
  end.

Definition off (type : option string) (_eventListeners : list Registration)
  : list Registration * list Registration :=
  match truthy type with
  | Some t =>
      (filter (fun l => String.eqb (regType l) t) _eventListeners,
       filter (fun l => negb (String.eqb (regType l) t)) _eventListeners)
  | None => (_eventListeners, [])
  end.

End Listeners.

Arguments regType {Handler ListenerOptions} _.
Arguments regHandler {Handler ListenerOptions} _.
Arguments regOptions {Handler ListenerOptions} _.
Arguments mkRegistration {Handler ListenerOptions} _ _ _.
Arguments on {Handler ListenerOptions} _ _ _ _.
Arguments off {Handler ListenerOptions} _ _.

(** ** More vocabulary *)

(** The element [_onStart] tests against the drag zones. *)
Definition pressTarget (e : Event) : option HTMLElement :=
  match e with
  | MouseEvent t _ _ => t
  | TouchEvent _ touch => touchTarget touch
  | OtherEvent _ => None
  end.

(** Every element from [startEl] up to the root of the document. *)
Definition lineage (startEl : option HTMLElement) : list HTMLElement :=
  match startEl with
  | Some el => chain el
  | None => []
  end.

Definition isDragAnchor (el : HTMLElement) : bool :=
  byId "bottomsheet-drag-handle" el
  || byId "bottomsheet-header" el
  || byId "bottomsheet-content" el.

Definition panelHas (c : string) (b : BottomSheet) : bool :=
  hasClass c (panelClasses (dom b)).

Definition bodyHas (c : string) (b : BottomSheet) : bool :=
  hasClass c (bodyClasses (dom b)).

(** The state flags are backed by the panel's classes. *)
Definition classesCoherent (b : BottomSheet) : Prop :=
  (isOpen (state b) = true -> panelHas "bottomsheet-open" b = true)
  /\ (isMinimized (state b) = true -> panelHas "bottomsheet-minimized" b = true)
  /\ (isUpdating (state b) = true -> panelHas "bottomsheet-updating" b = true).

(** A burst of calls of one function. *)
Definition burst {A S : Type} (f : A -> S -> S) (l : list A) (s : S) : S :=
  fold_left (fun acc a => f a acc) l s.

(* ================================================================ *)
(** ** Sessions used in the examples *)

Definition panelEl : HTMLElement :=
  mkElement 1 "div" "bottomsheet" "" [] false "visible" 0 600 600 None.

Definition handleEl : HTMLElement :=
  mkElement 2 "div" "bottomsheet-drag-handle" "" [] false "visible" 0 10 10
            (Some panelEl).

Definition emptyDom : Dom :=
  mkDom [] CssNone CssNone (Some []) (Some CssNone) [].

(** A controller built with no option given: bounds 40 and 500. *)
Definition fresh : BottomSheet :=
  constructor 1 (mkOptionsArg None None None) emptyDom.

(** A phone 390px wide whose container is 800px high, header 30px and
    handle 10px high, read at time [t] with the panel laid out [h] pixels
    high; on it [open] sets the bounds to 40 and 760. *)
Definition phone (t : Z) (h : Q) : Env :=
  mkEnv 390 t h 390 800 (Some 30) (Some 10) 40.

(** A desktop screen, read at time [t] with the panel [w] pixels wide. *)
Definition desktop (t : Z) (w : Q) : Env :=
  mkEnv 1280 t 600 w 800 (Some 30) (Some 10) 40.

Definition touchAt (y : Q) : Event :=
  TouchEvent (Some handleEl) (mkTouch (Some handleEl) 100 y).

Definition mouseAt (x : Q) : Event :=
  MouseEvent (Some handleEl) x 100.

(** Open on the phone, press the handle at y=700 while the panel is 200px
    high, hold, and drag up by 100px: the panel follows to 300px. *)
Definition dragUp : list Op :=
  [Open (phone 0 0); PanelDown (touchAt 700); HoldTimeout (phone 100 200);
   DocumentMove (phone 150 200) (touchAt 600)].

(** Open on the phone, press at y=100 while the panel is 760px high, hold,
    and drag down by 260px: the panel follows to 500px. *)
Definition dragDown : list Op :=
  [Open (phone 0 0); PanelDown (touchAt 100); HoldTimeout (phone 100 760);
   DocumentMove (phone 150 760) (touchAt 360)].

(** Open on the desktop, press at x=900 while the panel is 300px wide,
    hold, and drag left by 100px: the panel follows to 400px. *)
Definition dragLeft : list Op :=
  [Open (desktop 0 0); PanelDown (mouseAt 900); HoldTimeout (desktop 100 300);
   DocumentMove (desktop 150 300) (mouseAt 800)].

(** Open on the phone, press, hold, and move by 3px only. *)
Definition nudge : list Op :=
  [Open (phone 0 0); PanelDown (touchAt 700); HoldTimeout (phone 100 200);
   DocumentMove (phone 150 200) (touchAt 697)].

(** A release of [dragLeft] that snaps to maximum, then a tap on the
    desktop: press at x=700 with the panel 500px wide, hold, and move by
    1px. *)
Definition tapAfterDrag : list Op :=
  dragLeft ++
  [DocumentEnd (desktop 300 400);
   PanelDown (mouseAt 700); HoldTimeout (desktop 1000 500);
   DocumentMove (desktop 1050 500) (mouseAt 701)].

(** The same on the phone: a release of [dragUp], then press at y=700 with
    the panel 400px high, hold, and move by 1px. *)
Definition tapAfterDragPhone : list Op :=
  dragUp ++
  [DocumentEnd (phone 300 300);
   PanelDown (touchAt 700); HoldTimeout (phone 1000 400);
   DocumentMove (phone 1050 400) (touchAt 701)].




(** A button inside the drag handle. *)
Definition buttonEl : HTMLElement :=
  mkElement 3 "button" "" "" [] false "visible" 0 20 20 (Some handleEl).

(** A scrolled list inside the panel, and one of its items. *)
Definition listEl : HTMLElement :=
  mkElement 4 "ul" "bottomsheet-content" "" [] false "auto" 10 900 300 (Some panelEl).

Definition itemEl : HTMLElement :=
  mkElement 5 "li" "" "" [] false "visible" 0 40 40 (Some listEl).

End Sheet.

(* ================================================================== *)
(** * Properties *)

(** ** The instance registry *)

Section RegistryFacts.

Variable BottomSheet : Type.

Let fresh := Registry.initial BottomSheet.

Lemma calls_snoc (cs : list (Registry.Call BottomSheet)) c slot :
  Registry.calls BottomSheet (cs ++ [c]) slot
  = Registry.call BottomSheet c (Registry.calls BottomSheet cs slot).
Proof.
  unfold Registry.calls. now rewrite fold_left_app.
Qed.

Lemma calls_only_clear (cs : list (Registry.Call BottomSheet)) :
  forallb (Registry.isClear BottomSheet) cs = true ->
  Registry.calls BottomSheet cs fresh = None.
Proof.
  induction cs as [|c cs IH] using rev_ind; intros Hall.
  - reflexivity.
  - rewrite calls_snoc. rewrite forallb_app in Hall.
    apply andb_true_iff in Hall as [_ Hc]. cbn in Hc.
    destruct c; [discriminate | reflexivity].
Qed.

(** C9.  The checked getter fails with the "not initialized" error while
    no controller was ever set and right after a clear, and returns
    exactly the controller of the last set otherwise; the tolerant getter
    returns nothing instead of failing; the presence check is false after
    a clear and true after a set. *)
Theorem C9_registry_accessors :
  (forall cs, forallb (Registry.isClear BottomSheet) cs = true ->
     Registry.getBottomSheetOrThrow BottomSheet (Registry.calls BottomSheet cs fresh)
       = inl Registry.notInitialized
     /\ Registry.getBottomSheet BottomSheet (Registry.calls BottomSheet cs fresh) = None
     /\ Registry.isBottomSheetInitialized BottomSheet (Registry.calls BottomSheet cs fresh)
        = false)
  /\ (forall cs instance,
        let slot := Registry.calls BottomSheet (cs ++ [Registry.CallSet BottomSheet instance]) fresh in
        Registry.getBottomSheetOrThrow BottomSheet slot = inr instance
        /\ Registry.getBottomSheet BottomSheet slot = Some instance
        /\ Registry.isBottomSheetInitialized BottomSheet slot = true)
  /\ (forall cs,
        let slot := Registry.calls BottomSheet (cs ++ [Registry.CallClear BottomSheet]) fresh in
        Registry.getBottomSheetOrThrow BottomSheet slot = inl Registry.notInitialized
        /\ Registry.getBottomSheet BottomSheet slot = None
        /\ Registry.isBottomSheetInitialized BottomSheet slot = false).
Proof.
  split; [|split].
  - intros cs Hall. rewrite (calls_only_clear cs Hall). repeat split.
  - intros cs instance slot. subst slot. rewrite calls_snoc. repeat split.
  - intros cs slot. subst slot. rewrite calls_snoc. repeat split.
Qed.

End RegistryFacts.

(** C9 at work: two clears, then nothing registered; a set after another
    set returns the later controller. *)
Lemma C9_registry_accessors_witness :
  Registry.getBottomSheetOrThrow nat
    (Registry.calls nat [Registry.CallClear nat; Registry.CallClear nat] (Registry.initial nat))
  = inl Registry.notInitialized
  /\ Registry.getBottomSheetOrThrow nat
       (Registry.calls nat ([Registry.CallSet nat 1%nat] ++ [Registry.CallSet nat 2%nat])
          (Registry.initial nat))
     = inr 2%nat.
Proof.
  split.
  - apply (proj1 (C9_registry_accessors nat)
             [Registry.CallClear nat; Registry.CallClear nat]).
    reflexivity.
  - apply (proj1 (proj2 (C9_registry_accessors nat)) [Registry.CallSet nat 1%nat] 2%nat).
Defined.

(** ** processBatchAsync *)

(** Whole numbers among the numbers. *)
Lemma inject_Z_add (a b : Z) : (inject_Z a + inject_Z b)%Q = inject_Z (a + b).
Proof.
  unfold Qplus, inject_Z. cbn [Qnum Qden]. rewrite !Z.mul_1_r. reflexivity.
Qed.

Lemma inject_Z_sub (a b : Z) : (inject_Z a - inject_Z b)%Q = inject_Z (a - b).
Proof.
  unfold Qminus, Qopp, Qplus, inject_Z. cbn [Qnum Qden]. rewrite !Z.mul_1_r.
  reflexivity.
Qed.

Lemma Qmin_inject_Z (a b : Z) : Qmin (inject_Z a) (inject_Z b) = inject_Z (Z.min a b).
Proof.
  unfold Qmin, GenericMinMax.gmin, Qcompare, inject_Z, Z.min. cbn [Qnum Qden].
  rewrite !Z.mul_1_r. destruct (a ?= b)%Z; reflexivity.
Qed.

Lemma Qle_bool_inject_Z (a b : Z) : Qle_bool (inject_Z a) (inject_Z b) = (a <=? b)%Z.
Proof.
  unfold Qle_bool, inject_Z. cbn [Qnum Qden]. now rewrite !Z.mul_1_r.
Qed.

Lemma roundsBelow_inject_Z (c e : Z) :
  Helpers.roundsBelow (inject_Z c) (inject_Z e) = Z.to_nat (e - c).
Proof.
  unfold Helpers.roundsBelow. now rewrite inject_Z_sub, Qceiling_Z.
Qed.

(** The number of rounds is that of the loop's test [i < endIndex]. *)
Lemma roundsBelow_spec (from endIndex : Q) (k : nat) :
  (k < Helpers.roundsBelow from endIndex)%nat
  <-> (from + inject_Z (Z.of_nat k) < endIndex)%Q.
Proof.
  unfold Helpers.roundsBelow.
  set (x := (endIndex - from)%Q).
  pose proof (Qle_ceiling x) as Hup. pose proof (Qceiling_lt x) as Hlow.
  split.
  - intros Hk.
    assert (Hz : (Z.of_nat k <= Qceiling x - 1)%Z) by lia.
    rewrite Zle_Qle in Hz. unfold x in *. lra.
  - intros Hlt.
    assert (Hq : (inject_Z (Z.of_nat k) < inject_Z (Qceiling x))%Q)
      by (unfold x in *; lra).
    rewrite <- Zlt_Qlt in Hq. lia.
Qed.

Section BatchFacts.

Variable T : Type.
Variable items : list T.

Let len := length items.
Let upTo := Helpers.upTo T items.

Lemma itemAt_of_nat (c : nat) :
  Helpers.itemAt T items (inject_Z (Z.of_nat c)) = nth_error items c.
Proof.
  unfold Helpers.itemAt, Helpers.isWhole. rewrite Qfloor_Z.
  rewrite Qeq_bool_refl.
  change 0%Q with (inject_Z 0). rewrite Qle_bool_inject_Z.
  destruct (Z.leb_spec 0 (Z.of_nat c)) as [_|H]; [|lia].
  cbn [andb]. now rewrite Nat2Z.id.
Qed.

Lemma forLoop_seq (rounds c : nat) :
  Helpers.forLoop T items rounds (inject_Z (Z.of_nat c))
  = map (fun i => (nth_error items i, inject_Z (Z.of_nat i))) (seq c rounds).
Proof.
  revert c. induction rounds as [|r IH]; intros c; cbn [Helpers.forLoop seq map].
  - reflexivity.
  - rewrite itemAt_of_nat. f_equal.
    change 1%Q with (inject_Z 1). rewrite inject_Z_add.
    replace (Z.of_nat c + 1)%Z with (Z.of_nat (S c)) by lia. apply IH.
Qed.

(** One batch of a whole size, from a whole index. *)
Lemma processBatch_whole (z : Z) (c : nat) (b : Helpers.Batch T) :
  (1 <= z)%Z -> (c <= len)%nat -> upTo c b ->
  let c' := Nat.min (c + Z.to_nat z) len in
  upTo c' (Helpers.processBatch T items (inject_Z z) b)
  /\ Helpers.scheduled (Helpers.processBatch T items (inject_Z z) b)
     = (c + Z.to_nat z <? len)%nat.
Proof.
  intros Hz Hc [Hidx Hinv] c'.
  unfold upTo, Helpers.upTo, Helpers.processBatch;
    cbn [Helpers.currentIndex Helpers.invoked Helpers.scheduled].
  rewrite Hidx, Hinv. fold len.
  rewrite inject_Z_add, Qmin_inject_Z, roundsBelow_inject_Z, Qle_bool_inject_Z.
  assert (He : Z.min (Z.of_nat c + z) (Z.of_nat len) = Z.of_nat c')
    by (unfold c'; lia).
  rewrite He. split; [split|].
  - reflexivity.
  - rewrite forLoop_seq. unfold Helpers.inOrder. rewrite <- map_app, <- seq_app.
    f_equal. f_equal. unfold c'. lia.
  - destruct (Z.leb_spec (Z.of_nat len) (Z.of_nat c')),
             (Nat.ltb_spec (c + Z.to_nat z) len); cbn [negb];
      try reflexivity; unfold c' in *; lia.
Qed.

Lemma runQueue_idle (batchSize : Q) (batches : nat) (b : Helpers.Batch T) :
  Helpers.scheduled b = false -> Helpers.runQueue T items batchSize batches b = b.
Proof.
  intros H. destruct batches; cbn; [reflexivity | now rewrite H].
Qed.

Lemma runQueue_completes (z : Z) (batches c : nat) (b : Helpers.Batch T) :
  (1 <= z)%Z -> (c <= len)%nat -> upTo c b ->
  Helpers.scheduled b = true ->
  (Nat.max 1 (len - c) <= batches)%nat ->
  let final := Helpers.runQueue T items (inject_Z z) batches b in
  Helpers.scheduled final = false /\ upTo len final.
Proof.
  intros Hz. revert c b.
  induction batches as [|n IH]; intros c b Hc Hup Hsched Hfuel; [lia|].
  cbn [Helpers.runQueue]. rewrite Hsched.
  destruct (processBatch_whole z c b Hz Hc Hup) as [Hup' Hs'].
  destruct (Nat.ltb_spec (c + Z.to_nat z) len) as [Hlt|Hge].
  - apply (IH (Nat.min (c + Z.to_nat z) len)); try assumption; lia.
  - rewrite runQueue_idle by assumption.
    replace (Nat.min (c + Z.to_nat z) len) with len in Hup' by lia.
    now split.
Qed.

Lemma Qceiling_nonpos (x : Q) : (x <= 0)%Q -> (Qceiling x <= 0)%Z.
Proof.
  intros Hx. pose proof (Qceiling_lt x) as Hlow.
  assert (Hq : (inject_Z (Qceiling x - 1) < inject_Z 0)%Q)
    by (change (inject_Z 0) with 0%Q; lra).
  rewrite <- Zlt_Qlt in Hq. lia.
Qed.

Lemma runQueue_stuck (batchSize : Q) (batches : nat) (b : Helpers.Batch T) :
  (batchSize <= 0)%Q -> items <> [] ->
  (Helpers.currentIndex b <= 0)%Q -> Helpers.invoked b = [] ->
  Helpers.scheduled b = true ->
  let later := Helpers.runQueue T items batchSize batches b in
  Helpers.scheduled later = true /\ Helpers.invoked later = [].
Proof.
  intros Hbs Hne. revert b.
  assert (Hlen : (0 < inject_Z (Z.of_nat len))%Q).
  { change 0%Q with (inject_Z 0). rewrite <- Zlt_Qlt.
    unfold len. destruct items; [contradiction | cbn; lia]. }
  induction batches as [|n IH]; intros b Hidx Hinv Hsched; cbn [Helpers.runQueue].
  - now split.
  - rewrite Hsched.
    set (e := Qmin (Helpers.currentIndex b + batchSize)%Q (inject_Z (Z.of_nat len))).
    assert (He : (e <= Helpers.currentIndex b + batchSize)%Q) by apply Q.le_min_l.
    apply IH; unfold Helpers.processBatch;
      cbn [Helpers.currentIndex Helpers.invoked Helpers.scheduled]; fold len; fold e.
    + lra.
    + rewrite Hinv. unfold Helpers.roundsBelow.
      assert (Hr : (Qceiling (e - Helpers.currentIndex b) <= 0)%Z)
        by (apply Qceiling_nonpos; lra).
      replace (Z.to_nat _) with O by lia. reflexivity.
    + apply negb_true_iff. destruct (Qle_bool (inject_Z (Z.of_nat len)) e) eqn:E;
        [|reflexivity].
      apply Qle_bool_iff in E. exfalso. lra.
Qed.

(** C10, as the code has it.  With a whole [batchSize >= 1] the queue
    empties after at most [max 1 (length items)] batches, the callback
    having been invoked on [(items[0], 0)], [(items[1], 1)], ... up to the
    last index, each once and in this order, and every batch that starts at
    a whole index with work left advances [currentIndex] by at least one.
    A positive size is needed: with [batchSize <= 0], whole or not, and a
    non-empty array a batch is queued for ever and the callback is never
    invoked. *)
Theorem C10_processBatchAsync_whole_batches (z : Z) (batchSize : Q) :
  ((1 <= z)%Z ->
     (forall batches, (Nat.max 1 (length items) <= batches)%nat ->
        let final := Helpers.runQueue T items (inject_Z z) batches
                       Helpers.processBatchAsync in
        Helpers.scheduled final = false
        /\ Helpers.invoked final
           = map (fun i => (nth_error items i, inject_Z (Z.of_nat i)))
                 (seq 0 (length items)))
     /\ (forall b c, Helpers.currentIndex b = inject_Z c ->
           (c < Z.of_nat (length items))%Z ->
           Helpers.currentIndex (Helpers.processBatch T items (inject_Z z) b)
           = inject_Z (Z.min (c + z) (Z.of_nat (length items)))
           /\ (c + 1 <= Z.min (c + z) (Z.of_nat (length items)))%Z))
  /\ ((batchSize <= 0)%Q -> items <> [] ->
      forall batches,
        let later := Helpers.runQueue T items batchSize batches
                       Helpers.processBatchAsync in
        Helpers.scheduled later = true /\ Helpers.invoked later = []).
Proof.
  split.
  - intros Hz. split.
    + intros batches Hfuel.
      assert (Hup : upTo 0 Helpers.processBatchAsync) by (split; reflexivity).
      assert (Hf : (Nat.max 1 (len - 0) <= batches)%nat)
        by (unfold len; rewrite Nat.sub_0_r; exact Hfuel).
      destruct (runQueue_completes z batches 0 _ Hz (Nat.le_0_l _) Hup eq_refl Hf)
        as [Hdone [_ Hinv]].
      split; [exact Hdone | exact Hinv].
    + intros b c Hidx Hlt. unfold Helpers.processBatch;
        cbn [Helpers.currentIndex]. rewrite Hidx, inject_Z_add, Qmin_inject_Z.
      split; [reflexivity | lia].
  - intros Hbs Hne batches.
    apply runQueue_stuck; try assumption; try reflexivity.
    cbn [Helpers.currentIndex Helpers.processBatchAsync]. apply Qle_refl.
Qed.

End BatchFacts.

(** C10 at work: five items in batches of two. *)
Lemma C10_processBatchAsync_whole_batches_witness :
  let items := [10; 20; 30; 40; 50]%nat in
  let final := Helpers.runQueue nat items (inject_Z 2) 5 Helpers.processBatchAsync in
  (1 <= 2)%Z
  /\ Helpers.scheduled final = false
  /\ Helpers.invoked final
     = [(Some 10%nat, 0%Q); (Some 20%nat, 1%Q); (Some 30%nat, 2%Q);
        (Some 40%nat, 3%Q); (Some 50%nat, 4%Q)].
Proof.
  intros items final.
  assert (H12 : (1 <= 2)%Z) by lia.
  split; [exact H12|].
  apply (proj1 (proj1 (C10_processBatchAsync_whole_batches nat items 2 0%Q) H12) 5%nat).
  vm_compute. lia.
Defined.

(** C10 as stated fails: with [batchSize] 1.5, which is at least 1, and
    three items, the first batch invokes the callback at 0 and 1 and leaves
    [currentIndex] at 1.5; the second invokes it at 1.5 and 2.5, where the
    array has nothing, and empties the queue.  The third item is never
    passed to the callback. *)
Lemma C10_fractional_batch_skips_an_item :
  let items := [10; 20; 30]%nat in
  let final := Helpers.runQueue nat items 1.5%Q 2 Helpers.processBatchAsync in
  (1 <= 1.5)%Q
  /\ Helpers.scheduled final = false
  /\ (forall more, Helpers.runQueue nat items 1.5%Q more final = final)
  /\ Helpers.invoked final
     = [(Some 10%nat, 0%Q); (Some 20%nat, 1%Q); (None, 1.5%Q); (None, 2.5%Q)]
  /\ (forall i, ~ In (Some 30%nat, i) (Helpers.invoked final))
  /\ Helpers.invoked final
     <> map (fun i => (nth_error items i, inject_Z (Z.of_nat i))) (seq 0 (length items)).
Proof.
  intros items final.
  assert (Hinv : Helpers.invoked final
                 = [(Some 10%nat, 0%Q); (Some 20%nat, 1%Q); (None, 1.5%Q); (None, 2.5%Q)])
    by (vm_compute; reflexivity).
  split; [vm_compute; discriminate|].
  split; [reflexivity|].
  split; [intros more; apply runQueue_idle; reflexivity|].
  split; [exact Hinv|].
  split.
  - intros i Hin. rewrite Hinv in Hin. cbn [In] in Hin.
    destruct Hin as [H|[H|[H|[H|[]]]]]; discriminate H.
  - rewrite Hinv. vm_compute. discriminate.
Qed.

(** ** The panel controller *)

Import Sheet.
Local Open Scope Q_scope.

(** *** Comparisons *)

Lemma Qltb_lt (a b : Q) : Qltb a b = true <-> a < b.
Proof.
  unfold Qltb. rewrite negb_true_iff. split.
  - intros H. apply Qnot_le_lt. intros Hle.
    apply Qle_bool_iff in Hle. congruence.
  - intros H. destruct (Qle_bool b a) eqn:E; [|reflexivity].
    apply Qle_bool_iff in E. exfalso. exact (Qlt_not_le _ _ H E).
Qed.

Lemma Qltb_ge (a b : Q) : Qltb a b = false <-> b <= a.
Proof.
  unfold Qltb. rewrite negb_false_iff. apply Qle_bool_iff.
Qed.

Lemma Qgtb_gt (a b : Q) : Qgtb a b = true <-> b < a.
Proof. apply Qltb_lt. Qed.

Lemma Qgtb_le (a b : Q) : Qgtb a b = false <-> a <= b.
Proof. apply Qltb_ge. Qed.

(** *** The scroll-conflict classifier *)

(** Induction along the parent pointers. *)
Lemma parent_ind (P : HTMLElement -> Prop) :
  (forall el, (forall p, parentElement el = Some p -> P p) -> P el) ->
  forall el, P el.
Proof.
  intros step. fix IH 1. intros el. apply step.
  destruct el as [i n a r c d o t h k parent]. cbn.
  intros p Hp. destruct parent as [q|]; [|discriminate].
  injection Hp as <-. apply IH.
Qed.

Lemma ancestorsCanMove_unfold panelId el delta :
  ancestorsCanMove panelId el delta
  = if Nat.eqb (nodeId el) panelId then false
    else if _canScrollYInDirection panelId el delta then true
    else match parentElement el with
         | Some p => ancestorsCanMove panelId p delta
         | None => false
         end.
Proof. destruct el; reflexivity. Qed.

Lemma chain_unfold el :
  chain el = el :: match parentElement el with
                   | Some p => chain p
                   | None => []
                   end.
Proof. destruct el; reflexivity. Qed.

(** The loop is a search along the visited elements that stops at the
    first hit. *)
Lemma ancestorsCanMove_existsb panelId delta el :
  ancestorsCanMove panelId el delta
  = existsb (fun a => _canScrollYInDirection panelId a delta)
            (belowPanel panelId (chain el)).
Proof.
  induction el as [el IH] using parent_ind.
  rewrite ancestorsCanMove_unfold, chain_unfold. cbn [belowPanel].
  destruct (Nat.eqb (nodeId el) panelId); [reflexivity|].
  cbn [existsb].
  destruct (_canScrollYInDirection panelId el delta); [reflexivity|].
  cbn [orb].
  destruct (parentElement el) as [p|] eqn:Hp; [|reflexivity].
  now apply IH.
Qed.

Lemma belowPanel_not_panel panelId l el :
  In el (belowPanel panelId l) -> nodeId el <> panelId.
Proof.
  induction l as [|x l IH]; cbn; [tauto|].
  destruct (Nat.eqb_spec (nodeId x) panelId) as [|Hne]; cbn; [tauto|].
  intros [<-|Hin]; auto.
Qed.

Lemma _isScrollableY_spec panelId el :
  nodeId el <> panelId ->
  (_isScrollableY panelId el = true <-> scrollableY el).
Proof.
  intros Hne. unfold _isScrollableY, scrollableY.
  destruct (Nat.eqb_spec (nodeId el) panelId) as [|_]; [contradiction|].
  rewrite andb_true_iff, orb_true_iff, !String.eqb_eq, Qgtb_gt. tauto.
Qed.

Lemma _canScrollYInDirection_spec panelId el delta :
  nodeId el <> panelId ->
  (_canScrollYInDirection panelId el delta = true
   <-> scrollableY el /\ hasRoom el delta).
Proof.
  intros Hne. unfold _canScrollYInDirection, hasRoom.
  pose proof (_isScrollableY_spec panelId el Hne) as Hs.
  destruct (_isScrollableY panelId el); cbn [negb].
  2:{ split; [discriminate|]. intros [Hy _]. now apply Hs in Hy. }
  assert (Hy : scrollableY el) by now apply Hs.
  destruct (Qgtb delta 0) eqn:Hpos.
  - apply Qgtb_gt in Hpos. rewrite Qgtb_gt. split.
    + intros H. split; [exact Hy|]. left. now split.
    + intros [_ [[_ H]|[Hneg _]]]; [exact H|].
      exfalso. exact (Qlt_irrefl _ (Qlt_trans _ _ _ Hpos Hneg)).
  - apply Qgtb_le in Hpos. destruct (Qltb delta 0) eqn:Hneg.
    + apply Qltb_lt in Hneg. rewrite Qltb_lt. split.
      * intros H. split; [exact Hy|]. right. now split.
      * intros [_ [[Hp _]|[_ H]]]; [|exact H].
        exfalso. exact (Qlt_not_le _ _ Hp Hpos).
    + apply Qltb_ge in Hneg. split; [discriminate|].
      intros [_ [[Hp _]|[Hn _]]]; exfalso.
      * exact (Qlt_not_le _ _ Hp Hpos).
      * exact (Qlt_not_le _ _ Hn Hneg).
Qed.

(** C6.  The classifier answers true exactly when one of the elements from
    the start element up to, and not including, the panel is scrollable on
    the vertical axis (computed overflow-y [auto] or [scroll], content
    taller than the box) and has room in the direction of [delta]
    ([scrollTop > 5] for a positive [delta], [scrollTop + clientHeight <
    scrollHeight] for a negative one); it is the search along these
    elements that stops at the first one which qualifies. *)
Theorem C6_scroll_conflict_classifier panelId startEl delta :
  (_anyScrollableAncestorCanMove panelId startEl delta = true
   <-> exists el, In el (visited panelId startEl)
                  /\ scrollableY el /\ hasRoom el delta)
  /\ _anyScrollableAncestorCanMove panelId startEl delta
     = existsb (fun el => _canScrollYInDirection panelId el delta)
               (visited panelId startEl).
Proof.
  assert (Hsearch : _anyScrollableAncestorCanMove panelId startEl delta
                    = existsb (fun el => _canScrollYInDirection panelId el delta)
                              (visited panelId startEl)).
  { destruct startEl as [el|]; cbn; [apply ancestorsCanMove_existsb | reflexivity]. }
  split; [|exact Hsearch].
  rewrite Hsearch, existsb_exists. split.
  - intros (el & Hin & Hcan). exists el. split; [exact Hin|].
    apply (_canScrollYInDirection_spec panelId); [|exact Hcan].
    destruct startEl as [s|]; cbn in Hin; [|contradiction].
    exact (belowPanel_not_panel _ _ _ Hin).
  - intros (el & Hin & Hy & Hroom). exists el. split; [exact Hin|].
    apply (_canScrollYInDirection_spec panelId); [|now split].
    destruct startEl as [s|]; cbn in Hin; [|contradiction].
    exact (belowPanel_not_panel _ _ _ Hin).
Qed.

(** C6 at work: a touch that starts on a plain element inside a scrolled
    list inside the panel. *)
Lemma C6_scroll_conflict_classifier_witness :
  let panelEl := mkElement 1 "div" "bottomsheet" "" [] false "visible" 0 900 600 None in
  let listEl := mkElement 2 "ul" "" "" [] false "auto" 10 900 300 (Some panelEl) in
  let itemEl := mkElement 3 "li" "" "" [] false "visible" 0 40 40 (Some listEl) in
  exists el, In el (visited 1 (Some itemEl)) /\ scrollableY el /\ hasRoom el 8.
Proof.
  intros panelEl listEl itemEl.
  apply (proj1 (proj1 (C6_scroll_conflict_classifier 1 (Some itemEl) 8))).
  reflexivity.
Defined.

(** *** The size flags *)

Lemma showPanelContent_flags b :
  isMinimized (state (showPanelContent b)) = false
  /\ isMaximized (state (showPanelContent b)) = isMaximized (state b).
Proof. split; reflexivity. Qed.

Lemma hidePanelContent_flags b :
  isMinimized (state (hidePanelContent b)) = true
  /\ isMaximized (state (hidePanelContent b)) = false.
Proof. split; reflexivity. Qed.

Lemma setMaxSize_flags env b :
  isMinimized (state (setMaxSize env b)) = false
  /\ isMaximized (state (setMaxSize env b)) = true.
Proof. unfold setMaxSize. destruct (isMobile env); split; reflexivity. Qed.

Lemma setMinSize_flags env b :
  isMinimized (state (setMinSize env b)) = true
  /\ isMaximized (state (setMinSize env b)) = false.
Proof. unfold setMinSize. destruct (isMobile env); split; reflexivity. Qed.

Lemma setMidSize_flags env b :
  isMinimized (state (setMidSize env b)) = false
  /\ isMaximized (state (setMidSize env b)) = negb (isMobile env).
Proof.
  unfold setMidSize. destruct (isMobile env) eqn:E.
  - split; reflexivity.
  - apply setMaxSize_flags.
Qed.

Lemma flagsExclusive_minimized_false b :
  isMinimized (state b) = false -> flagsExclusive b.
Proof. unfold flagsExclusive. intros ->. apply andb_false_r. Qed.

Lemma flagsExclusive_maximized_false b :
  isMaximized (state b) = false -> flagsExclusive b.
Proof. unfold flagsExclusive. now intros ->. Qed.

Lemma flagsExclusive_same b b' :
  isMinimized (state b') = isMinimized (state b) ->
  isMaximized (state b') = isMaximized (state b) ->
  flagsExclusive b -> flagsExclusive b'.
Proof. unfold flagsExclusive. now intros -> ->. Qed.

Lemma open_flagsExclusive env b : flagsExclusive (open env b).
Proof.
  unfold open.
  destruct (isOpen (state (_updateSizeLimits env b))
            && negb (isUpdating (state (_updateSizeLimits env b)))).
  - apply flagsExclusive_minimized_false, setMidSize_flags.
  - apply flagsExclusive_minimized_false. reflexivity.
Qed.

Lemma close_flagsExclusive b : flagsExclusive (close b).
Proof. apply flagsExclusive_minimized_false. reflexivity. Qed.

Lemma minimize_flagsExclusive env b : flagsExclusive b -> flagsExclusive (minimize env b).
Proof.
  intros H. unfold minimize.
  destruct (negb (isOpen (state b)) || isMinimized (state b)); [exact H|].
  apply flagsExclusive_maximized_false. destruct (isMobile env); reflexivity.
Qed.

Lemma _onStart_flagsExclusive env e b : flagsExclusive b -> flagsExclusive (_onStart env e b).
Proof.
  intros H. unfold _onStart.
  match goal with |- context [if ?c then b else _] => destruct c end; [exact H|].
  apply flagsExclusive_minimized_false.
  destruct (isMaximized (state b)), (isMobile env); reflexivity.
Qed.

Lemma _onMove_flags env e b :
  isMinimized (state (_onMove env e b)) = isMinimized (state b)
  /\ isMaximized (state (_onMove env e b)) = isMaximized (state b).
Proof.
  unfold _onMove. destruct (negb (isDragging (state b))); [now split|].
  destruct e as [t x y|t touch|t]; cbn [state _dispatchEvent].
  - unfold _onMoveDesktop.
    match goal with |- context [if ?c then _ else _] => destruct c end;
      split; reflexivity.
  - destruct (isMobile env); [|now split].
    unfold _onMoveMobile, trackMovement.
    repeat match goal with |- context [if ?c then _ else _] => destruct c end;
      split; reflexivity.
  - now split.
Qed.

Lemma _onEndMobile_flagsExclusive env b : flagsExclusive (_onEndMobile env b).
Proof.
  unfold _onEndMobile.
  set (b1 := remeasureMinSize env b).
  match goal with
  | |- flagsExclusive (if isMaximized (state ?r) then _ else _) =>
      assert (Hr : flagsExclusive r)
  end.
  { repeat match goal with |- context [if ?c then _ else _] => destruct c end.
    - apply flagsExclusive_minimized_false, setMidSize_flags.
    - apply flagsExclusive_maximized_false, setMinSize_flags.
    - apply flagsExclusive_minimized_false, setMaxSize_flags. }
  match goal with
  | |- flagsExclusive (if ?c then _ else _) => destruct c
  end; [|exact Hr].
  revert Hr. apply flagsExclusive_same; reflexivity.
Qed.

Lemma _onEndDesktop_flagsExclusive env b : flagsExclusive (_onEndDesktop env b).
Proof.
  unfold _onEndDesktop.
  match goal with |- context [if ?c then _ else _] => destruct c end.
  - apply flagsExclusive_maximized_false, setMinSize_flags.
  - apply flagsExclusive_minimized_false, setMaxSize_flags.
Qed.

Lemma _onEnd_flagsExclusive env b : flagsExclusive b -> flagsExclusive (_onEnd env b).
Proof.
  intros H. unfold _onEnd.
  destruct (negb (isDragging (state b))); [exact H|].
  destruct (negb (hasMoved (state b))); [exact H|].
  destruct (500 <? now env - dragStart (state b))%Z; [exact H|].
  destruct (isMobile env).
  - apply _onEndMobile_flagsExclusive.
  - apply _onEndDesktop_flagsExclusive.
Qed.

Lemma step_flagsExclusive op b : flagsExclusive b -> flagsExclusive (step op b).
Proof.
  intros H. destruct op; cbn [step].
  - apply open_flagsExclusive.
  - apply close_flagsExclusive.
  - now apply minimize_flagsExclusive.
  - unfold updatePanel. destruct (negb (isOpen (state b))); exact H.
  - apply flagsExclusive_maximized_false, setMinSize_flags.
  - apply flagsExclusive_minimized_false, setMidSize_flags.
  - apply flagsExclusive_minimized_false, setMaxSize_flags.
  - exact H.
  - unfold Helpers.fire. destruct (holdTimer b) as [e|]; [|exact H].
    apply (_onStart_flagsExclusive env e) in H. exact H.
  - apply _onEnd_flagsExclusive. exact H.
  - revert H. apply flagsExclusive_same; apply _onMove_flags.
  - now apply _onEnd_flagsExclusive.
  - unfold onContainerClick.
    repeat match goal with |- context [if ?c then _ else _] => destruct c end.
    + exact H.
    + apply close_flagsExclusive.
    + now apply minimize_flagsExclusive.
  - apply close_flagsExclusive.
  - destruct (cleanups b); exact H.
  - unfold _adjustContentHeight.
    destruct (negb (isMobile env) || isUpdating (state b)); [exact H|].
    destruct (wrapperHeight (dom b)); exact H.
Qed.

Lemma run_snoc ops op b : run (ops ++ [op]) b = step op (run ops b).
Proof. unfold run. now rewrite fold_left_app. Qed.

Lemma run_flagsExclusive ops b : flagsExclusive b -> flagsExclusive (run ops b).
Proof.
  intros H. induction ops as [|op ops IH] using rev_ind; [exact H|].
  rewrite run_snoc. now apply step_flagsExclusive.
Qed.

(** C8.  From the freshly constructed controller, whatever the sequence of
    public operations, listener calls and timer callbacks, [isMaximized] and
    [isMinimized] are not both true; and both can be false at once: they are
    after a snap to mid-size on the vertical axis. *)
Theorem C8_flags_never_both_true panelId arg d :
  (forall ops,
     let b := run ops (constructor panelId arg d) in
     isMaximized (state b) && isMinimized (state b) = false)
  /\ (exists env,
        let b := run [Open env; SetMidSize env] (constructor panelId arg d) in
        isMaximized (state b) = false /\ isMinimized (state b) = false
        /\ last (dispatched b) ""%string = "bottomsheet:midsize"%string).
Proof.
  split.
  - intros ops. apply run_flagsExclusive. reflexivity.
  - exists (phone 0 0). cbn. repeat split.
Qed.

(** Reduction of field reads over field writes, leaving numbers alone. *)
Ltac fields :=
  cbn [panel options state dom holdTimer dispatched cleanups
       startPoint startSize prevPoint lastDiff isDragging isOpen isMinimized
       isMaximized isUpdating dragStart hasMoved totalMovement
       maxSize minSize closeOnOverlayClick
       panelClasses styleHeight styleWidth contentClasses wrapperHeight bodyClasses
       withOptions withState withDom withHoldTimer withCleanups
       setMaxSizeOpt setMinSizeOpt
       setStartPoint setStartSize setPrevPoint setLastDiff setIsDragging setIsOpen
       setIsMinimized setIsMaximized setIsUpdating setDragStart setHasMoved
       setTotalMovement
       setPanelClasses setStyleHeight setStyleWidth setContentClasses
       setWrapperHeight setBodyClasses
       panelAdd panelRemove contentAdd contentRemove bodyAdd bodyRemove
       height width _dispatchEvent scheduleCleanup
       showPanelContent hidePanelContent] in *.

(** *** The movement gate *)

Lemma movedPastNoise_same b b' :
  hasMoved (state b') = hasMoved (state b) ->
  totalMovement (state b') = totalMovement (state b) ->
  movedPastNoise b -> movedPastNoise b'.
Proof. unfold movedPastNoise. now intros -> ->. Qed.

Lemma movedPastNoise_not_moved b :
  hasMoved (state b) = false -> movedPastNoise b.
Proof. unfold movedPastNoise. intros ->. discriminate. Qed.

Lemma setMaxSize_movement env b :
  hasMoved (state (setMaxSize env b)) = hasMoved (state b)
  /\ totalMovement (state (setMaxSize env b)) = totalMovement (state b).
Proof. unfold setMaxSize. destruct (isMobile env); split; reflexivity. Qed.

Lemma setMinSize_movement env b :
  hasMoved (state (setMinSize env b)) = hasMoved (state b)
  /\ totalMovement (state (setMinSize env b)) = totalMovement (state b).
Proof. unfold setMinSize. destruct (isMobile env); split; reflexivity. Qed.

Lemma setMidSize_movement env b :
  hasMoved (state (setMidSize env b)) = hasMoved (state b)
  /\ totalMovement (state (setMidSize env b)) = totalMovement (state b).
Proof.
  unfold setMidSize. destruct (isMobile env); [split; reflexivity|].
  apply setMaxSize_movement.
Qed.

Lemma remeasureMinSize_state env b : state (remeasureMinSize env b) = state b.
Proof. unfold remeasureMinSize. destruct (measuredMinSize env); reflexivity. Qed.

Lemma _updateSizeLimits_state env b : state (_updateSizeLimits env b) = state b.
Proof.
  unfold _updateSizeLimits. destruct (isMobile env); [|reflexivity].
  now rewrite remeasureMinSize_state.
Qed.

Lemma open_movement env b :
  hasMoved (state (open env b)) = hasMoved (state b)
  /\ totalMovement (state (open env b)) = totalMovement (state b).
Proof.
  unfold open.
  match goal with |- context [if ?c then _ else _] => destruct c end.
  - destruct (setMidSize_movement env (_updateSizeLimits env b)) as [-> ->].
    now rewrite _updateSizeLimits_state.
  - fields. now rewrite _updateSizeLimits_state.
Qed.

Lemma minimize_movement env b :
  hasMoved (state (minimize env b)) = hasMoved (state b)
  /\ totalMovement (state (minimize env b)) = totalMovement (state b).
Proof.
  unfold minimize.
  match goal with |- context [if ?c then b else _] => destruct c end; [now split|].
  destruct (isMobile env); split; reflexivity.
Qed.

Lemma total_grows (total moved : Q) : total <= total + Qabs moved.
Proof.
  rewrite <- (Qplus_0_r total) at 1.
  apply Qplus_le_r, Qabs_nonneg.
Qed.

Lemma trackMovement_movedPastNoise moved b :
  movedPastNoise b -> movedPastNoise (trackMovement moved b).
Proof.
  unfold movedPastNoise, trackMovement. intros H.
  match goal with |- context [if ?c then _ else _] => destruct c eqn:Hc end.
  - intros _. apply Qgtb_gt in Hc. exact Hc.
  - fields. intros Hm. eapply Qlt_le_trans; [exact (H Hm) | apply total_grows].
Qed.

Lemma _onMoveMobile_movement target touch b :
  let tracked := trackMovement (touchClientY touch - prevPoint (state b))
                               (withState (setPrevPoint (touchClientY touch)) b) in
  hasMoved (state (_onMoveMobile target touch b)) = hasMoved (state tracked)
  /\ totalMovement (state (_onMoveMobile target touch b)) = totalMovement (state tracked).
Proof.
  unfold _onMoveMobile.
  repeat match goal with
         | |- context [if ?c then _ else _] =>
             lazymatch c with
             | Qgtb _ 5 => fail
             | _ => destruct c
             end
         end; split; reflexivity.
Qed.

Lemma _onMoveDesktop_movedPastNoise x b :
  movedPastNoise b -> movedPastNoise (_onMoveDesktop x b).
Proof.
  unfold movedPastNoise, _onMoveDesktop. intros H.
  match goal with |- context [if ?c then _ else _] => destruct c eqn:Hc end.
  - intros _. apply Qgtb_gt in Hc. exact Hc.
  - fields. intros Hm. eapply Qlt_le_trans; [exact (H Hm) | apply total_grows].
Qed.

Lemma _onMove_movedPastNoise env e b :
  movedPastNoise b -> movedPastNoise (_onMove env e b).
Proof.
  intros H. unfold _onMove. destruct (negb (isDragging (state b))); [exact H|].
  destruct e as [t x y|t touch|t].
  - apply (_onMoveDesktop_movedPastNoise x) in H. exact H.
  - destruct (isMobile env); [|exact H].
    destruct (_onMoveMobile_movement t touch b) as [Hm Ht].
    apply (movedPastNoise_same _ _ Hm Ht).
    apply trackMovement_movedPastNoise. exact H.
  - exact H.
Qed.

Lemma _onStart_movedPastNoise env e b :
  movedPastNoise b -> movedPastNoise (_onStart env e b).
Proof.
  intros H. unfold _onStart.
  match goal with |- context [if ?c then b else _] => destruct c end; [exact H|].
  apply movedPastNoise_not_moved.
  destruct (isMaximized (state b)), (isMobile env); reflexivity.
Qed.

Lemma _onEnd_movedPastNoise env b :
  movedPastNoise b -> movedPastNoise (_onEnd env b).
Proof.
  intros H. unfold _onEnd.
  destruct (negb (isDragging (state b))); [exact H|].
  apply movedPastNoise_not_moved.
  destruct (negb (hasMoved (state b))); [reflexivity|].
  destruct (500 <? now env - dragStart (state b))%Z; [reflexivity|].
  destruct (isMobile env).
  - unfold _onEndMobile.
    repeat match goal with |- context [if ?c then _ else _] => destruct c end;
      cbn [state contentRemove withDom];
      first [ rewrite (proj1 (setMidSize_movement _ _))
            | rewrite (proj1 (setMinSize_movement _ _))
            | rewrite (proj1 (setMaxSize_movement _ _)) ];
      now rewrite remeasureMinSize_state.
  - unfold _onEndDesktop.
    match goal with |- context [if ?c then _ else _] => destruct c end;
      first [ rewrite (proj1 (setMinSize_movement _ _))
            | rewrite (proj1 (setMaxSize_movement _ _)) ];
      reflexivity.
Qed.

Lemma step_movedPastNoise op b : movedPastNoise b -> movedPastNoise (step op b).
Proof.
  intros H. destruct op; cbn [step].
  - revert H. apply movedPastNoise_same; apply open_movement.
  - exact H.
  - revert H. apply movedPastNoise_same; apply minimize_movement.
  - unfold updatePanel. destruct (negb (isOpen (state b))); exact H.
  - revert H. apply movedPastNoise_same; apply setMinSize_movement.
  - revert H. apply movedPastNoise_same; apply setMidSize_movement.
  - revert H. apply movedPastNoise_same; apply setMaxSize_movement.
  - exact H.
  - unfold Helpers.fire. destruct (holdTimer b) as [e|]; [|exact H].
    apply (_onStart_movedPastNoise env e) in H. exact H.
  - apply _onEnd_movedPastNoise. exact H.
  - now apply _onMove_movedPastNoise.
  - now apply _onEnd_movedPastNoise.
  - unfold onContainerClick.
    repeat match goal with |- context [if ?c then _ else _] => destruct c end.
    + exact H.
    + exact H.
    + revert H. apply movedPastNoise_same; apply minimize_movement.
  - exact H.
  - destruct (cleanups b); exact H.
  - unfold _adjustContentHeight.
    destruct (negb (isMobile env) || isUpdating (state b)); [exact H|].
    destruct (wrapperHeight (dom b)); exact H.
Qed.

Lemma run_movedPastNoise ops b : movedPastNoise b -> movedPastNoise (run ops b).
Proof.
  intros H. induction ops as [|op ops IH] using rev_ind; [exact H|].
  rewrite run_snoc. now apply step_movedPastNoise.
Qed.

(** A release that fails the movement gate or the duration gate writes no
    size, changes no bound and dispatches nothing. *)
Lemma _onEnd_gated env b :
  hasMoved (state b) = false \/ (500 < now env - dragStart (state b))%Z ->
  untouched b (_onEnd env b).
Proof.
  intros Hgate. unfold _onEnd.
  destruct (negb (isDragging (state b))); [now split|].
  destruct (hasMoved (state b)) eqn:Hm; cbn [negb]; [|now split].
  destruct Hgate as [Hgate|Hgate]; [discriminate|].
  apply Z.ltb_lt in Hgate. rewrite Hgate. now split.
Qed.

(** A release with [hasMoved] still false, whatever the time since the
    press, leaves the panel's inline size and the bounds as they were and
    dispatches no event; and in every state the controller can reach,
    [hasMoved] is false as long as the counter [totalMovement] has not
    exceeded 5px. *)
Lemma release_below_threshold_changes_nothing :
  (forall env b, hasMoved (state b) = false -> untouched b (_onEnd env b))
  /\ (forall panelId arg d ops env,
        let b := run ops (constructor panelId arg d) in
        totalMovement (state b) <= 5 ->
        hasMoved (state b) = false /\ untouched b (_onEnd env b)).
Proof.
  split.
  - intros env b H. apply _onEnd_gated. now left.
  - intros panelId arg d ops env b Hle.
    assert (Hm : hasMoved (state b) = false).
    { destruct (hasMoved (state b)) eqn:E; [|reflexivity]. exfalso.
      assert (Hinv : movedPastNoise b)
        by (apply run_movedPastNoise, movedPastNoise_not_moved; reflexivity).
      exact (Qlt_not_le _ _ (Hinv E) Hle). }
    split; [exact Hm|]. apply _onEnd_gated. now left.
Qed.

(** *** The outcome of a completed drag *)

Lemma _onEnd_completed env b :
  completedDrag env b ->
  _onEnd env b
  = let released := bodyRemove "overflow-hidden"
                      (bodyRemove "select-none"
                         (panelRemove "bottomsheet-dragging"
                            (withState (setIsDragging false)
                               (withState (setHasMoved false) b)))) in
    if isMobile env then _onEndMobile env released else _onEndDesktop env released.
Proof.
  intros [Hd Hm Ht]. unfold _onEnd. rewrite Hd, Hm. cbn [negb].
  destruct (Z.ltb_spec 500 (now env - dragStart (state b))) as [Hlt|_]; [lia|].
  reflexivity.
Qed.

Lemma _onEnd_vertical env b :
  completedDrag env b -> isMobile env = true ->
  snapped env
    (verticalTier (offsetHeight env) (startSize (state b)) (maxSize (options b)))
    b (_onEnd env b).
Proof.
  intros Hdrag Hmob. rewrite (_onEnd_completed env b Hdrag). cbv zeta.
  rewrite Hmob. unfold _onEndMobile, verticalTier, remeasureMinSize.
  destruct (measuredMinSize env) as [m|]; fields;
    destruct (Qltb (offsetHeight env) (startSize (state b))),
             (Qgtb (offsetHeight env) (maxSize (options b) * 0.6)),
             (Qgtb (offsetHeight env) (startSize (state b))),
             (Qltb (offsetHeight env) (maxSize (options b) * 0.6));
    cbn [andb orb];
    unfold setMidSize, setMinSize, setMaxSize; rewrite Hmob; fields;
    (split; [reflexivity | unfold axisSize; rewrite Hmob; reflexivity
            | reflexivity | reflexivity]).
Qed.

Lemma _onEnd_horizontal env b :
  completedDrag env b -> isMobile env = false ->
  snapped env (horizontalTier (offsetWidth env) (startSize (state b)))
    b (_onEnd env b).
Proof.
  intros Hdrag Hmob. rewrite (_onEnd_completed env b Hdrag). cbv zeta.
  rewrite Hmob. unfold _onEndDesktop, horizontalTier. fields.
  destruct (Qltb (offsetWidth env) (startSize (state b)));
    unfold setMinSize, setMaxSize; rewrite Hmob; fields;
    (split; [reflexivity | unfold axisSize; rewrite Hmob; reflexivity
            | reflexivity | reflexivity]).
Qed.

Lemma verticalTier_cases (finalSize start maxSz : Q) :
  let threshold := maxSz * 0.6 in
  (finalSize < start /\ finalSize < threshold ->
     verticalTier finalSize start maxSz = ToMin)
  /\ ((finalSize < start /\ threshold < finalSize)
      \/ (start < finalSize /\ finalSize < threshold) ->
        verticalTier finalSize start maxSz = ToMid)
  /\ ((start <= finalSize /\ threshold <= finalSize)
      \/ finalSize == start \/ finalSize == threshold ->
        verticalTier finalSize start maxSz = ToMax).
Proof.
  intros threshold. unfold verticalTier. fold threshold.
  destruct (Qltb finalSize start) eqn:E1;
    [apply Qltb_lt in E1 | apply Qltb_ge in E1];
  (destruct (Qgtb finalSize threshold) eqn:E2;
    [apply Qgtb_gt in E2 | apply Qgtb_le in E2]);
  (destruct (Qgtb finalSize start) eqn:E3;
    [apply Qgtb_gt in E3 | apply Qgtb_le in E3]);
  (destruct (Qltb finalSize threshold) eqn:E4;
    [apply Qltb_lt in E4 | apply Qltb_ge in E4]);
  cbn [andb orb]; (split; [|split]); intros H; try reflexivity; exfalso; lra.
Qed.

(** C1, as the code has it.  A completed drag on the vertical axis snaps to
    a tier decided by [finalSize], [startSize] and [maxSize] alone: to
    minimum when [finalSize] is below both the start and 60% of the
    maximum; to mid when it is below the start and above the threshold, and
    also when it is above the start and below the threshold; to maximum in
    every other case, that is when it is at or above both, or equal to the
    start, or equal to the threshold. *)
Theorem C1_vertical_end_of_drag env b :
  completedDrag env b -> isMobile env = true ->
  let finalSize := offsetHeight env in
  let start := startSize (state b) in
  let threshold := maxSize (options b) * 0.6 in
  (finalSize < start /\ finalSize < threshold ->
     snapped env ToMin b (_onEnd env b))
  /\ ((finalSize < start /\ threshold < finalSize)
      \/ (start < finalSize /\ finalSize < threshold) ->
        snapped env ToMid b (_onEnd env b))
  /\ ((start <= finalSize /\ threshold <= finalSize)
      \/ finalSize == start \/ finalSize == threshold ->
        snapped env ToMax b (_onEnd env b)).
Proof.
  intros Hdrag Hmob finalSize start threshold.
  pose proof (_onEnd_vertical env b Hdrag Hmob) as Hsnap.
  destruct (verticalTier_cases finalSize start (maxSize (options b)))
    as (Hmin & Hmid & Hmax).
  fold finalSize start in Hsnap.
  (split; [|split]); intros H;
    [rewrite (Hmin H) in Hsnap | rewrite (Hmid H) in Hsnap | rewrite (Hmax H) in Hsnap];
    exact Hsnap.
Qed.

(** C1 at work: pulled down from 760px to 500px, above the threshold of
    456px, the panel snaps to mid. *)
Lemma C1_vertical_end_of_drag_witness :
  snapped (phone 300 500) ToMid (run dragDown fresh)
          (_onEnd (phone 300 500) (run dragDown fresh)).
Proof.
  assert (Hdrag : completedDrag (phone 300 500) (run dragDown fresh)).
  { split; [reflexivity | reflexivity | vm_compute; discriminate]. }
  apply (proj1 (proj2 (C1_vertical_end_of_drag (phone 300 500) (run dragDown fresh)
                         Hdrag eq_refl))).
  left. split; vm_compute; reflexivity.
Defined.

(** C1 as stated fails: pulled up from 200px to 300px, below the threshold
    of 456px, the final size is at or above the start, the stated rule
    says maximum, and the panel snaps to mid. *)
Lemma C1_growing_below_threshold_snaps_to_mid :
  let b := run dragUp fresh in
  let env := phone 300 300 in
  completedDrag env b /\ isMobile env = true
  /\ startSize (state b) <= offsetHeight env
  /\ specifiedTier (offsetHeight env) (startSize (state b)) (maxSize (options b)) = ToMax
  /\ snapped env ToMid b (_onEnd env b)
  /\ ~ snapped env ToMax b (_onEnd env b).
Proof.
  intros b env.
  assert (Hdrag : completedDrag env b).
  { split; [reflexivity | reflexivity | vm_compute; discriminate]. }
  split; [exact Hdrag|]. split; [reflexivity|].
  split; [vm_compute; discriminate|]. split; [reflexivity|]. split.
  - split; vm_compute; reflexivity.
  - intros [He _ _ _]. vm_compute in He. discriminate.
Qed.

(** C5.  On the horizontal axis mid-size is maximum size: [setMidSize]
    returns what [setMaxSize] returns; and a completed drag has two
    outcomes, decided by comparing the final width with the starting one:
    below it the panel snaps to minimum, otherwise to maximum. *)
Theorem C5_horizontal_two_tiers env b :
  isMobile env = false ->
  setMidSize env b = setMaxSize env b
  /\ (completedDrag env b ->
      (offsetWidth env < startSize (state b) -> snapped env ToMin b (_onEnd env b))
      /\ (startSize (state b) <= offsetWidth env -> snapped env ToMax b (_onEnd env b))).
Proof.
  intros Hmob. split.
  - unfold setMidSize. now rewrite Hmob.
  - intros Hdrag.
    pose proof (_onEnd_horizontal env b Hdrag Hmob) as Hsnap.
    unfold horizontalTier in Hsnap. split; intros H.
    + apply Qltb_lt in H. now rewrite H in Hsnap.
    + apply Qltb_ge in H. now rewrite H in Hsnap.
Qed.

(** C5 at work: widened from 300px to 400px on the desktop, the panel snaps
    to maximum. *)
Lemma C5_horizontal_two_tiers_witness :
  snapped (desktop 300 400) ToMax (run dragLeft fresh)
          (_onEnd (desktop 300 400) (run dragLeft fresh)).
Proof.
  assert (Hdrag : completedDrag (desktop 300 400) (run dragLeft fresh)).
  { split; [reflexivity | reflexivity | vm_compute; discriminate]. }
  apply (proj2 (proj2 (C5_horizontal_two_tiers (desktop 300 400) (run dragLeft fresh)
                         eq_refl) Hdrag)).
  vm_compute. discriminate.
Defined.

(** *** Sizes written by a drag *)


Lemma _onMoveDesktop_writes x b :
  options (_onMoveDesktop x b) = options b
  /\ styleHeight (dom (_onMoveDesktop x b)) = styleHeight (dom b)
  /\ styleWidth (dom (_onMoveDesktop x b))
     = CssPx (clampSize (options b) (startSize (state b) + (startPoint (state b) - x))).
Proof.
  unfold _onMoveDesktop.
  match goal with |- context [if ?c then _ else _] => destruct c end;
    repeat split; reflexivity.
Qed.





(** C2, as the code has it.  A release more than 500ms after the drag
    started writes no height and no width, changes no bound and dispatches
    no event: the panel keeps the size the last move gave it. *)
Theorem C2_long_drag_release_writes_nothing env b :
  (500 < now env - dragStart (state b))%Z -> untouched b (_onEnd env b).
Proof.
  intros H. apply _onEnd_gated. now right.
Qed.

(** C2 at work: [dragUp] released 800ms after the press. *)
Lemma C2_long_drag_release_writes_nothing_witness :
  untouched (run dragUp fresh) (_onEnd (phone 900 300) (run dragUp fresh)).
Proof.
  apply (C2_long_drag_release_writes_nothing (phone 900 300) (run dragUp fresh)).
  vm_compute. reflexivity.
Defined.

(** C2 as stated fails: [dragUp] moves by 100px, past the noise threshold,
    and is released 800ms after the press; the panel, 200px high and with
    no inline height when the drag started, ends the gesture with an inline
    height of 300px. *)
Lemma C2_long_drag_keeps_the_moved_size :
  let pressed := run [Open (phone 0 0); PanelDown (touchAt 700); HoldTimeout (phone 100 200)]
                     fresh in
  let released := run (dragUp ++ [PanelUp (phone 900 300)]) fresh in
  (500 < now (phone 900 300) - dragStart (state (run dragUp fresh)))%Z
  /\ hasMoved (state (run dragUp fresh)) = true
  /\ startSize (state pressed) = 200
  /\ styleHeight (dom pressed) = CssNone
  /\ styleHeight (dom released) = CssPx 300
  /\ styleHeight (dom released) <> styleHeight (dom pressed)
  /\ styleHeight (dom released) <> CssPx (startSize (state pressed)).
Proof.
  intros pressed released.
  repeat split; try reflexivity; vm_compute; discriminate.
Qed.

(** *** Re-entrant gesture starts *)

(** C4, as the code has it.  While the hold timer is pending a new press on
    the panel is ignored: the controller, and with it the start point, start
    size, drag start time, accumulated movement and moved flag, is exactly
    as before, and the timer still holds the first press. *)
Theorem C4_press_ignored_while_timer_pending b first e :
  holdTimer b = Some first ->
  step (PanelDown e) b = b
  /\ dragFields (step (PanelDown e) b) = dragFields b
  /\ holdTimer (step (PanelDown e) b) = Some first.
Proof.
  intros Hpending.
  assert (Hsame : step (PanelDown e) b = b).
  { cbn [step]. rewrite Hpending. cbn [Helpers.start].
    rewrite <- Hpending. destruct b; reflexivity. }
  rewrite Hsame. repeat split. exact Hpending.
Qed.

(** C4 at work: a second press 10px lower while the first is held. *)
Lemma C4_press_ignored_while_timer_pending_witness :
  let b := run [Open (phone 0 0); PanelDown (touchAt 700)] fresh in
  step (PanelDown (touchAt 710)) b = b.
Proof.
  intros b.
  exact (proj1 (C4_press_ignored_while_timer_pending b (touchAt 700) (touchAt 710) eq_refl)).
Defined.

(** C4 as stated fails: after [dragUp] a drag is in progress and no timer is
    pending; a second press arms the timer, and when it fires the drag state
    is initialised again. *)
Lemma C4_press_while_dragging_restarts :
  let b := run dragUp fresh in
  let b' := run [PanelDown (touchAt 650); HoldTimeout (phone 400 300)] b in
  isDragging (state b) = true
  /\ holdTimer b = None
  /\ holdTimer (step (PanelDown (touchAt 650)) b) = Some (touchAt 650)
  /\ dragFields b = (700, 200, 100%Z, 100, true)
  /\ dragFields b' = (650, 300, 400%Z, 0, false)
  /\ dragFields b' <> dragFields b.
Proof.
  intros b b'. repeat split; try reflexivity.
  vm_compute. discriminate.
Qed.

(** C7, where the code departs from it.  On the desktop [_onStart] does
    not reset [lastDiff], against which the first move of a gesture is
    measured.  After a drag of 100px, a press followed by 1px of travel and a
    release 100ms after the press has its movement counted as 101px: the
    gesture passes for a drag, and the release snaps the panel to minimum,
    clearing the inline width of 499px and dispatching
    [bottomsheet:minsize].  The same gesture on the phone, where the start
    resets [prevPoint], counts 1px, and its release changes nothing. *)
Theorem C7_desktop_tap_after_a_drag_snaps :
  let b := run tapAfterDrag fresh in
  let b' := _onEnd (desktop 1100 499) b in
  let m := run tapAfterDragPhone fresh in
  Qabs (701 - startPoint (state b)) == 1
  /\ totalMovement (state b) == 101 /\ hasMoved (state b) = true
  /\ styleWidth (dom b) = CssPx 499 /\ styleWidth (dom b') = CssNone
  /\ isMinimized (state b) = false /\ isMinimized (state b') = true
  /\ dispatched b' = dispatched b ++ ["bottomsheet:minsize"%string]
  /\ Qabs (701 - startPoint (state m)) == 1
  /\ totalMovement (state m) == 1 /\ hasMoved (state m) = false
  /\ untouched m (_onEnd (phone 1100 400) m).
Proof.
  intros b b' m.
  repeat match goal with |- _ /\ _ => split end;
    try (vm_compute; reflexivity).
  split; vm_compute; reflexivity.
Qed.

(* ================================================================== *)
(** * Further properties *)

(** ** helpers.ts *)

Section DebounceFacts.

Variable Args : Type.

Lemma debounced_timeout (args : Args) d :
  Helpers.timeout (Helpers.debounced args d) = Some args
  /\ Helpers.applied (Helpers.debounced args d) = Helpers.applied d.
Proof. unfold Helpers.debounced. destruct (Helpers.timeout d); split; reflexivity. Qed.

Lemma burst_snoc {A S : Type} (f : A -> S -> S) l a s :
  burst f (l ++ [a]) s = f a (burst f l s).
Proof. unfold burst. now rewrite fold_left_app. Qed.

Lemma burst_debounced_applied (calls : list Args) d :
  Helpers.applied (burst Helpers.debounced calls d) = Helpers.applied d.
Proof.
  induction calls as [|a calls IH] using rev_ind; [reflexivity|].
  rewrite burst_snoc. now rewrite (proj2 (debounced_timeout _ _)).
Qed.

(** X1.  However many calls of the debounced function come before the
    timer fires, [func] runs once, with the arguments of the last call; the
    earlier calls are dropped, and a second firing does nothing.  A timer
    that fires with no call pending does nothing either. *)
Theorem X1_debounce_runs_last_call_once (calls : list Args) (lastArgs : Args) d :
  let fired := Helpers.later (burst Helpers.debounced (calls ++ [lastArgs]) d) in
  fired = Helpers.mkDebounced None (Helpers.applied d ++ [lastArgs])
  /\ Helpers.later fired = fired
  /\ Helpers.later (@Helpers.debounce Args) = Helpers.debounce.
Proof.
  intros fired.
  assert (Hf : fired = Helpers.mkDebounced None (Helpers.applied d ++ [lastArgs])).
  { subst fired. rewrite burst_snoc. unfold Helpers.later.
    destruct (debounced_timeout lastArgs (burst Helpers.debounced calls d)) as [-> ->].
    now rewrite burst_debounced_applied. }
  rewrite Hf. repeat split.
Qed.

End DebounceFacts.

Section HoldFacts.

Variables Ev St : Type.
Variable fn : Ev -> St -> St.

Lemma start_pending (e first : Ev) :
  Helpers.start e (Some first) = Some first.
Proof. reflexivity. Qed.

Lemma burst_start_pending (presses : list Ev) (first : Ev) :
  burst Helpers.start presses (Some first) = Some first.
Proof.
  induction presses as [|e presses IH] using rev_ind; [reflexivity|].
  rewrite burst_snoc, IH. reflexivity.
Qed.

(** X2.  Of the presses that arrive before the hold timer fires only the
    first counts: the timer stays the one armed by the first press, its
    callback runs [fn] once, on the first event, and disarms the timer; and
    if [cancel] comes first, [fn] is not run at all. *)
Theorem X2_hold_delivers_first_press (first : Ev) (presses : list Ev) (st : St) :
  let timer := burst Helpers.start (first :: presses) None in
  timer = Some first
  /\ Helpers.fire fn timer st = (None, fn first st)
  /\ Helpers.fire fn (fst (Helpers.fire fn timer st)) (snd (Helpers.fire fn timer st))
     = (None, fn first st)
  /\ Helpers.fire fn (Helpers.cancel timer) st = (None, st).
Proof.
  intros timer.
  assert (Ht : timer = Some first).
  { subst timer. unfold burst. cbn [fold_left Helpers.start].
    apply burst_start_pending. }
  rewrite Ht. repeat split.
Qed.

End HoldFacts.

Section BatchProgress.

Variable T : Type.
Variable items : list T.
Variable z : Z.

Let len := length items.
Let size := Z.to_nat z.
Let batchSize := inject_Z z.

Lemma runQueue_snoc (k : nat) (b : Helpers.Batch T) :
  Helpers.runQueue T items batchSize (S k) b
  = let b' := Helpers.runQueue T items batchSize k b in
    if Helpers.scheduled b' then Helpers.processBatch T items batchSize b' else b'.
Proof.
  revert b. induction k as [|k IH]; intros b.
  - cbn. destruct (Helpers.scheduled b); reflexivity.
  - change (Helpers.runQueue T items batchSize (S (S k)) b)
      with (if Helpers.scheduled b
            then Helpers.runQueue T items batchSize (S k)
                   (Helpers.processBatch T items batchSize b)
            else b).
    destruct (Helpers.scheduled b) eqn:Hs.
    + rewrite IH. cbn [Helpers.runQueue]. now rewrite Hs.
    + cbn [Helpers.runQueue]. rewrite Hs. cbv zeta. now rewrite Hs.
Qed.

(** X3.  With a whole [batchSize >= 1], after the host has been given
    [k >= 1] turns the callback has been invoked on exactly the first
    [min (k * batchSize) (length items)] items, in order, and a further
    batch is queued exactly when [k * batchSize < length items]: the work is
    done after [ceil (length / batchSize)] batches, and one batch with no
    invocation is run for an empty array. *)
Theorem X3_processBatchAsync_progress (k : nat) :
  (1 <= z)%Z ->
  let b := Helpers.runQueue T items (inject_Z z) (S k) Helpers.processBatchAsync in
  Helpers.invoked b
  = map (fun i => (nth_error items i, inject_Z (Z.of_nat i)))
        (seq 0 (Nat.min (S k * Z.to_nat z) (length items)))
  /\ Helpers.currentIndex b
     = inject_Z (Z.of_nat (Nat.min (S k * Z.to_nat z) (length items)))
  /\ Helpers.scheduled b = (S k * Z.to_nat z <? length items)%nat.
Proof.
  intros Hz. fold size len batchSize.
  assert (Hsize : (1 <= size)%nat) by (unfold size; lia).
  assert (H : Helpers.upTo T items (Nat.min (S k * size) len)
                (Helpers.runQueue T items batchSize (S k) Helpers.processBatchAsync)
              /\ Helpers.scheduled
                   (Helpers.runQueue T items batchSize (S k) Helpers.processBatchAsync)
                 = (S k * size <? len)%nat).
  { induction k as [|k IH].
    - cbn [Helpers.runQueue Helpers.scheduled Helpers.processBatchAsync].
      assert (H0 : Helpers.upTo T items 0 Helpers.processBatchAsync)
        by (split; reflexivity).
      destruct (processBatch_whole T items z 0 _ Hz (Nat.le_0_l _) H0) as [Hup Hs].
      fold size len batchSize in Hup, Hs.
      replace (1 * size)%nat with (0 + size)%nat by lia. now split.
    - rewrite runQueue_snoc. cbv zeta. destruct IH as [Hup Hs]. rewrite Hs.
      destruct (Nat.ltb_spec (S k * size) len) as [Hlt|Hge].
      + destruct (processBatch_whole T items z (Nat.min (S k * size) len) _ Hz
                    (Nat.le_min_r _ _) Hup) as [Hup' Hs'].
        fold size len batchSize in Hup', Hs'.
        replace (Nat.min (S k * size) len + size)%nat with (S (S k) * size)%nat
          in Hup', Hs' by lia.
        now split.
      + replace (Nat.min (S (S k) * size) len) with (Nat.min (S k * size) len) by lia.
        split; [exact Hup|].
        rewrite Hs. symmetry. apply Nat.ltb_ge. lia. }
  destruct H as [[Hidx Hinv] Hs]. repeat split; assumption.
Qed.

End BatchProgress.

(** X3 at work: five items in batches of two, after two turns. *)
Lemma X3_processBatchAsync_progress_witness :
  let b := Helpers.runQueue nat [10; 20; 30; 40; 50]%nat (inject_Z 2) 2
             Helpers.processBatchAsync in
  Helpers.invoked b
  = [(Some 10%nat, 0%Q); (Some 20%nat, 1%Q); (Some 30%nat, 2%Q); (Some 40%nat, 3%Q)]
  /\ Helpers.currentIndex b = 4%Q
  /\ Helpers.scheduled b = true.
Proof.
  assert (H12 : (1 <= 2)%Z) by lia.
  exact (X3_processBatchAsync_progress nat [10; 20; 30; 40; 50]%nat 2 1 H12).
Defined.

(** ** BottomSheet.ts: the drag zones and the start of a drag *)

Lemma closest_unfold matches el :
  closest matches el
  = if matches el then Some el
    else match parentElement el with
         | Some p => closest matches p
         | None => None
         end.
Proof. destruct el; reflexivity. Qed.

(** [closest] finds an element exactly when one of the elements from the
    start up to the root matches. *)
Lemma closest_lineage matches el :
  isSome (closest matches el) = existsb matches (chain el).
Proof.
  induction el as [el IH] using parent_ind.
  rewrite closest_unfold, chain_unfold. cbn [existsb].
  destruct (matches el); [reflexivity|]. cbn [orb].
  destruct (parentElement el) as [p|] eqn:Hp; [|reflexivity].
  now apply IH.
Qed.

Lemma existsb_orb {A : Type} (f g : A -> bool) l :
  existsb (fun x => f x || g x) l = existsb f l || existsb g l.
Proof.
  induction l as [|x l IH]; [reflexivity|]. cbn [existsb]. rewrite IH.
  destruct (f x), (g x), (existsb f l); reflexivity.
Qed.

Lemma _isDragZone_lineage target :
  _isDragZone target
  = negb (existsb interactiveSelector (lineage target))
    && existsb isDragAnchor (lineage target).
Proof.
  destruct target as [t|]; [|reflexivity].
  unfold _isDragZone, _isInteractiveTarget, isDragAnchor. cbn [lineage].
  rewrite !closest_lineage, !existsb_orb.
  destruct (existsb interactiveSelector (chain t)); [reflexivity|].
  destruct (existsb (byId "bottomsheet-drag-handle") (chain t)); [reflexivity|].
  destruct (existsb (byId "bottomsheet-header") (chain t)); [reflexivity|].
  destruct (existsb (byId "bottomsheet-content") (chain t)); reflexivity.
Qed.

(** X4.  A target is a drag zone exactly when no element from the target up
    to the root of the document is interactive (a link, button, input,
    textarea, select, [role="button"], [.link], [.no-drag] or
    [[data-no-drag]]) and one of these elements is the drag handle, the
    header or the content region; a missing target is no drag zone. *)
Theorem X4_drag_zone_characterised target :
  _isDragZone target
  = negb (existsb interactiveSelector (lineage target))
    && existsb isDragAnchor (lineage target).
Proof. apply _isDragZone_lineage. Qed.

Lemma _onStart_rejected env e b :
  isSome (pressTarget e) = true -> _isDragZone (pressTarget e) = false ->
  _onStart env e b = b.
Proof.
  intros Hsome Hzone. unfold _onStart.
  change (match e with
          | MouseEvent t _ _ => t
          | TouchEvent _ touch => touchTarget touch
          | OtherEvent _ => None
          end) with (pressTarget e).
  now rewrite Hsome, Hzone.
Qed.

(** X5.  A press whose target is, or lies inside, an interactive element
    starts no drag, even inside the handle or the header: when the hold
    timer fires, [_onStart] leaves the controller as it was and only the
    timer is disarmed. *)
Theorem X5_press_on_interactive_starts_nothing env e b :
  existsb interactiveSelector (lineage (pressTarget e)) = true ->
  _onStart env e b = b
  /\ (holdTimer b = Some e -> step (HoldTimeout env) b = withHoldTimer None b).
Proof.
  intros Hint.
  assert (Hstart : _onStart env e b = b).
  { apply _onStart_rejected.
    - destruct (pressTarget e); [reflexivity | discriminate].
    - rewrite _isDragZone_lineage, Hint. reflexivity. }
  split; [exact Hstart|].
  intros Ht. cbn [step]. rewrite Ht. cbn [Helpers.fire]. now rewrite Hstart.
Qed.

(** X5 at work: a press on a button placed inside the drag handle. *)
Lemma X5_press_on_interactive_starts_nothing_witness :
  _onStart (phone 100 200) (MouseEvent (Some buttonEl) 100 700) fresh = fresh.
Proof.
  exact (proj1 (X5_press_on_interactive_starts_nothing (phone 100 200)
                  (MouseEvent (Some buttonEl) 100 700) fresh eq_refl)).
Defined.

Lemma _onStart_accepted env e b :
  pressTarget e = None \/ _isDragZone (pressTarget e) = true ->
  _onStart env e b
  = let b1 := if isMaximized (state b) then contentRemove "overflow-hidden" b else b in
    let b2 := showPanelContent
                (withState (setTotalMovement 0)
                   (withState (setHasMoved false)
                      (withState (setDragStart (now env))
                         (withState (setIsDragging true) b1)))) in
    let b3 := if isMobile env
              then
                let p := match e with
                         | TouchEvent _ touch => touchClientY touch
                         | MouseEvent _ _ y => y
                         | OtherEvent _ => 0
                         end in
                withState (setPrevPoint p)
                  (withState (setStartSize (offsetHeight env))
                     (withState (setStartPoint p) b2))
              else
                let p := match e with
                         | MouseEvent _ x _ => x
                         | TouchEvent _ touch => touchClientX touch
                         | OtherEvent _ => 0
                         end in
                withState (setStartSize (offsetWidth env))
                  (withState (setStartPoint p) b2) in
    bodyAdd "overflow-hidden" (bodyAdd "select-none" b3).
Proof.
  intros Hok. unfold _onStart.
  change (match e with
          | MouseEvent t _ _ => t
          | TouchEvent _ touch => touchTarget touch
          | OtherEvent _ => None
          end) with (pressTarget e).
  destruct Hok as [-> | ->]; [reflexivity|].
  rewrite andb_false_r. reflexivity.
Qed.

(** X6.  When the hold timer fires on a press that has no target or whose
    target is a drag zone, the drag begins whatever state the panel was in,
    closed and minimized included: the panel is marked open and not
    minimized, its inline height and width are cleared, the gesture's
    movement is reset, the start time and the start size (height on the
    vertical axis, width on the horizontal one) are recorded, and no event
    is dispatched and no bound changed. *)
Theorem X6_drag_start_shows_the_panel env e b :
  pressTarget e = None \/ _isDragZone (pressTarget e) = true ->
  let b' := _onStart env e b in
  isDragging (state b') = true
  /\ isOpen (state b') = true /\ isMinimized (state b') = false
  /\ isUpdating (state b') = false
  /\ isMaximized (state b') = isMaximized (state b)
  /\ hasMoved (state b') = false /\ totalMovement (state b') = 0
  /\ dragStart (state b') = now env
  /\ startSize (state b') = (if isMobile env then offsetHeight env else offsetWidth env)
  /\ styleHeight (dom b') = CssNone /\ styleWidth (dom b') = CssNone
  /\ dispatched b' = dispatched b /\ options b' = options b.
Proof.
  intros Hok b'. subst b'. rewrite (_onStart_accepted env e b Hok). cbv zeta.
  destruct (isMaximized (state b)) eqn:Hmax, (isMobile env);
    fields; rewrite ?Hmax; repeat split; reflexivity.
Qed.

(** X6 at work: a touch on the handle of a controller that was never
    opened. *)
Lemma X6_drag_start_shows_the_panel_witness :
  isOpen (state (_onStart (phone 100 200) (touchAt 700) fresh)) = true.
Proof.
  assert (Hok : pressTarget (touchAt 700) = None
                \/ _isDragZone (pressTarget (touchAt 700)) = true)
    by (right; reflexivity).
  exact (proj1 (proj2 (X6_drag_start_shows_the_panel (phone 100 200) (touchAt 700)
                         fresh Hok))).
Defined.




(** ** BottomSheet.ts: moves and releases *)

Lemma hasClass_classAdd c c' l :
  hasClass c (classAdd c' l) = String.eqb c c' || hasClass c l.
Proof.
  unfold classAdd, hasClass.
  destruct (existsb (String.eqb c') l) eqn:Hin.
  - destruct (String.eqb_spec c c') as [->|_]; [now rewrite Hin | reflexivity].
  - rewrite existsb_app. cbn [existsb]. rewrite orb_false_r. apply orb_comm.
Qed.

Lemma hasClass_classRemove c c' l :
  hasClass c (classRemove c' l) = negb (String.eqb c c') && hasClass c l.
Proof.
  unfold classRemove, hasClass. induction l as [|x l IH]; cbn [filter existsb].
  - now rewrite andb_false_r.
  - destruct (String.eqb_spec c' x) as [->|Hne]; cbn [negb existsb].
    + rewrite IH. destruct (String.eqb_spec c x) as [->|_]; cbn [negb andb orb].
      * reflexivity.
      * reflexivity.
    + rewrite IH. destruct (String.eqb_spec c x) as [->|_]; cbn [orb].
      * destruct (String.eqb_spec x c') as [->|_]; [contradiction | reflexivity].
      * reflexivity.
Qed.

(** Class queries over a sequence of [add]/[remove] with literal names. *)
Ltac classes :=
  unfold panelHas, bodyHas in *; fields;
  repeat first [ rewrite hasClass_classAdd | rewrite hasClass_classRemove ];
  repeat match goal with
         | |- context [String.eqb ?a ?b] =>
             let v := eval vm_compute in (String.eqb a b) in
             progress change (String.eqb a b) with v
         end;
  cbn [negb andb orb] in *.

Lemma _onMoveDesktop_dispatched x b :
  dispatched (_onMoveDesktop x b) = dispatched b.
Proof.
  unfold _onMoveDesktop.
  match goal with |- context [if ?c then _ else _] => destruct c end; reflexivity.
Qed.

Lemma _onMoveMobile_dispatched target touch b :
  dispatched (_onMoveMobile target touch b) = dispatched b.
Proof.
  unfold _onMoveMobile, trackMovement.
  repeat match goal with |- context [if ?c then _ else _] => destruct c end;
    reflexivity.
Qed.

(** X8.  While a drag is in progress every move dispatches exactly one
    [bottomsheet:dragging] event, also when the move yields to a scrolling
    ancestor or is of a kind the device's axis ignores; with no drag in
    progress a move changes nothing at all. *)
Theorem X8_move_dispatches_one_dragging_event env e b :
  dispatched (_onMove env e b)
  = (if isDragging (state b)
     then dispatched b ++ ["bottomsheet:dragging"%string]
     else dispatched b)
  /\ (isDragging (state b) = false -> _onMove env e b = b).
Proof.
  unfold _onMove. destruct (isDragging (state b)); cbn [negb]; [|now split].
  split; [|discriminate].
  destruct e as [t x y|t touch|t]; fields.
  - now rewrite _onMoveDesktop_dispatched.
  - destruct (isMobile env); [|reflexivity]. now rewrite _onMoveMobile_dispatched.
  - reflexivity.
Qed.

(** X8 at work: a move after a finished gesture. *)
Lemma X8_move_dispatches_one_dragging_event_witness :
  _onMove (phone 150 200) (touchAt 600) fresh = fresh.
Proof.
  exact (proj2 (X8_move_dispatches_one_dragging_event (phone 150 200) (touchAt 600) fresh)
               eq_refl).
Defined.

Lemma _onMoveMobile_yields target touch b :
  _anyScrollableAncestorCanMove (panel b) target
    (touchClientY touch - prevPoint (state b)) = true ->
  let b' := _onMoveMobile target touch b in
  isDragging (state b') = false
  /\ styleHeight (dom b') = styleHeight (dom b)
  /\ styleWidth (dom b') = styleWidth (dom b)
  /\ options b' = options b
  /\ bodyClasses (dom b') = bodyClasses (dom b).
Proof.
  intros Hyield. unfold _onMoveMobile, trackMovement.
  repeat match goal with
         | |- context [if ?c then _ else _] =>
             lazymatch c with
             | context [_anyScrollableAncestorCanMove] => fail
             | _ => destruct c
             end
         end; fields; rewrite Hyield; fields; repeat split; reflexivity.
Qed.

(** X9.  On the vertical axis, a touch move made while an element between
    the touch target and the panel can still scroll in the direction of the
    move abandons the drag: no height is written, the drag flag is cleared,
    and from then on moves and the release are ignored, so that no snap
    takes place and the classes put on [document.body] at the start of the
    drag stay. *)
Theorem X9_scroll_yield_abandons_the_drag env target touch b :
  isDragging (state b) = true -> isMobile env = true ->
  _anyScrollableAncestorCanMove (panel b) target
    (touchClientY touch - prevPoint (state b)) = true ->
  let b' := _onMove env (TouchEvent target touch) b in
  isDragging (state b') = false
  /\ styleHeight (dom b') = styleHeight (dom b)
  /\ styleWidth (dom b') = styleWidth (dom b)
  /\ options b' = options b
  /\ bodyClasses (dom b') = bodyClasses (dom b)
  /\ (forall env' e', _onMove env' e' b' = b')
  /\ (forall env', _onEnd env' b' = b').
Proof.
  intros Hdrag Hmob Hyield b'.
  destruct (_onMoveMobile_yields target touch b Hyield) as (Hd & Hh & Hw & Ho & Hb).
  assert (Heq : b' = _dispatchEvent "bottomsheet:dragging"
                       (_onMoveMobile target touch b)).
  { subst b'. unfold _onMove. now rewrite Hdrag, Hmob. }
  assert (Hidle : isDragging (state b') = false) by (rewrite Heq; exact Hd).
  split; [exact Hidle|].
  split; [rewrite Heq; exact Hh|]. split; [rewrite Heq; exact Hw|].
  split; [rewrite Heq; exact Ho|]. split; [rewrite Heq; exact Hb|].
  split.
  - intros env' e'. unfold _onMove. now rewrite Hidle.
  - intros env'. unfold _onEnd. now rewrite Hidle.
Qed.

(** X9 at work: dragging down on an item of a list that is scrolled by
    10px. *)
Lemma X9_scroll_yield_abandons_the_drag_witness :
  let b := run [Open (phone 0 0); PanelDown (touchAt 300); HoldTimeout (phone 100 400)]
               fresh in
  let e := TouchEvent (Some itemEl) (mkTouch (Some itemEl) 100 320) in
  isDragging (state (_onMove (phone 150 400) e b)) = false.
Proof.
  intros b e.
  exact (proj1 (X9_scroll_yield_abandons_the_drag (phone 150 400) (Some itemEl)
                  (mkTouch (Some itemEl) 100 320) b eq_refl eq_refl eq_refl)).
Defined.

Lemma clampSize_inside o s :
  minSize o <= s -> s <= maxSize o -> clampSize o s == s.
Proof.
  intros Hlo Hhi. unfold clampSize.
  rewrite (Q.min_r _ _ Hhi). now apply Q.max_r.
Qed.

Lemma clampSize_above o s :
  minSize o <= maxSize o -> maxSize o <= s -> clampSize o s == maxSize o.
Proof.
  intros Hb Hhi. unfold clampSize.
  rewrite (Q.min_l _ _ Hhi). now apply Q.max_r.
Qed.

Lemma clampSize_below o s :
  minSize o <= maxSize o -> s <= minSize o -> clampSize o s == minSize o.
Proof.
  intros Hb Hlo. unfold clampSize.
  apply Q.max_l. eapply Qle_trans; [apply Q.le_min_r | exact Hlo].
Qed.

Lemma clampSize_inverted o s :
  maxSize o < minSize o -> clampSize o s = minSize o.
Proof.
  intros Hinv. unfold clampSize, Qmax, GenericMinMax.gmax.
  destruct (Qcompare_spec (minSize o) (Qmin (maxSize o) s)) as [_|Hlt|_];
    try reflexivity.
  exfalso.
  pose proof (Q.le_min_l (maxSize o) s) as Hle.
  exact (Qlt_irrefl _ (Qlt_trans _ _ _ Hlt (Qle_lt_trans _ _ _ Hle Hinv))).
Qed.

(** X10.  A mouse move writes as width the start size plus the distance
    travelled from the start point, clamped: while that sum lies within the
    bounds the panel follows the pointer exactly, beyond them it stays at
    the bound it passed, and should the bounds be inverted ([maxSize <
    minSize]) every move writes [minSize]. *)
Theorem X10_move_follows_the_pointer_within_bounds x b :
  let o := options b in
  let s := startSize (state b) + (startPoint (state b) - x) in
  styleWidth (dom (_onMoveDesktop x b)) = CssPx (clampSize o s)
  /\ (minSize o <= s -> s <= maxSize o -> clampSize o s == s)
  /\ (minSize o <= maxSize o -> maxSize o <= s -> clampSize o s == maxSize o)
  /\ (minSize o <= maxSize o -> s <= minSize o -> clampSize o s == minSize o)
  /\ (maxSize o < minSize o -> clampSize o s = minSize o).
Proof.
  intros o s. split; [apply _onMoveDesktop_writes|].
  split; [apply clampSize_inside|]. split; [apply clampSize_above|].
  split; [apply clampSize_below | apply clampSize_inverted].
Qed.

(** X10 at work: 300px wide at the press, the pointer 100px to the left. *)
Lemma X10_move_follows_the_pointer_within_bounds_witness :
  let b := run [Open (desktop 0 0); PanelDown (mouseAt 900); HoldTimeout (desktop 100 300)]
               fresh in
  let s := startSize (state b) + (startPoint (state b) - 800) in
  clampSize (options b) s == s.
Proof.
  intros b s.
  apply (proj1 (proj2 (X10_move_follows_the_pointer_within_bounds 800 b)));
    vm_compute; discriminate.
Defined.

Lemma trackMovement_grows moved b :
  totalMovement (state b) <= totalMovement (state (trackMovement moved b))
  /\ (hasMoved (state b) = true -> hasMoved (state (trackMovement moved b)) = true).
Proof.
  unfold trackMovement.
  match goal with |- context [if ?c then _ else _] => destruct c end; fields;
    (split; [apply total_grows | tauto]).
Qed.

Lemma _onMoveDesktop_grows x b :
  totalMovement (state b) <= totalMovement (state (_onMoveDesktop x b))
  /\ (hasMoved (state b) = true -> hasMoved (state (_onMoveDesktop x b)) = true).
Proof.
  unfold _onMoveDesktop.
  match goal with |- context [if ?c then _ else _] => destruct c end; fields;
    (split; [apply total_grows | tauto]).
Qed.

(** X11.  During a drag the accumulated movement never decreases and
    [hasMoved], once set, stays set: a move cannot take a gesture back below
    the noise threshold. *)
Theorem X11_movement_only_accumulates env e b :
  totalMovement (state b) <= totalMovement (state (_onMove env e b))
  /\ (hasMoved (state b) = true -> hasMoved (state (_onMove env e b)) = true).
Proof.
  unfold _onMove.
  destruct (negb (isDragging (state b))); [split; [apply Qle_refl | tauto]|].
  destruct e as [t x y|t touch|t]; fields.
  - apply _onMoveDesktop_grows.
  - destruct (isMobile env); [|split; [apply Qle_refl | tauto]].
    destruct (_onMoveMobile_movement t touch b) as [-> ->].
    apply (trackMovement_grows _ (withState (setPrevPoint (touchClientY touch)) b)).
  - split; [apply Qle_refl | tauto].
Qed.

(** X11 at work: the second move of a drag that has already moved. *)
Lemma X11_movement_only_accumulates_witness :
  hasMoved (state (_onMove (phone 200 300) (touchAt 598) (run dragUp fresh))) = true.
Proof.
  exact (proj2 (X11_movement_only_accumulates (phone 200 300) (touchAt 598)
                  (run dragUp fresh)) eq_refl).
Defined.

Lemma Qabs_still (x l : Q) : 0 + Qabs (x - x - l) == Qabs l.
Proof.
  rewrite Qplus_0_l.
  assert (H : x - x - l == - l) by ring.
  rewrite H. apply Qabs_opp.
Qed.

(** X12.  On the horizontal axis [lastDiff] is not reset when a drag
    starts.  The first mouse move of a drag therefore counts the distance
    to the last offset of the previous drag: with the pointer still at the
    start point the accumulated movement is the previous [lastDiff] in
    absolute value, and the gesture counts as moved if that exceeds 5px. *)
Theorem X12_first_desktop_move_counts_previous_offset env env' t t' x y y' b :
  isMobile env = false ->
  t = None \/ _isDragZone t = true ->
  let pressed := _onStart env (MouseEvent t x y) b in
  let moved := _onMove env' (MouseEvent t' x y') pressed in
  lastDiff (state pressed) = lastDiff (state b)
  /\ totalMovement (state moved) == Qabs (lastDiff (state b))
  /\ (5 < Qabs (lastDiff (state b)) -> hasMoved (state moved) = true).
Proof.
  intros Hmob Hok pressed moved. subst moved pressed.
  rewrite (_onStart_accepted env (MouseEvent t x y) b Hok). cbv zeta.
  rewrite Hmob. unfold _onMove, _onMoveDesktop.
  destruct (isMaximized (state b)); fields; cbn [negb]; fields;
    (split; [reflexivity|]);
    match goal with |- context [if ?c then _ else _] => destruct c eqn:Hc end;
    fields;
    (split; [apply Qabs_still|]); intros Hbig; try reflexivity;
    exfalso; apply Qgtb_le in Hc; rewrite Qabs_still in Hc;
    exact (Qlt_not_le _ _ Hbig Hc).
Qed.

(** X12 at work: a drag of 100px to the left, released, then a press and a
    move with the pointer at rest. *)
Lemma X12_first_desktop_move_counts_previous_offset_witness :
  let b := run (dragLeft ++ [DocumentEnd (desktop 300 400)]) fresh in
  let pressed := _onStart (desktop 1000 500) (mouseAt 700) b in
  hasMoved (state (_onMove (desktop 1050 500) (mouseAt 700) pressed)) = true.
Proof.
  intros b pressed.
  assert (Hok : Some handleEl = None \/ _isDragZone (Some handleEl) = true)
    by (right; reflexivity).
  apply (proj2 (proj2 (X12_first_desktop_move_counts_previous_offset
                         (desktop 1000 500) (desktop 1050 500)
                         (Some handleEl) (Some handleEl) 700 100 100 b eq_refl Hok))).
  vm_compute. reflexivity.
Defined.

(** What the three presets leave alone. *)
Lemma presets_keep env b :
  (isDragging (state (setMinSize env b)) = isDragging (state b)
   /\ bodyClasses (dom (setMinSize env b)) = bodyClasses (dom b)
   /\ panelHas "bottomsheet-dragging" (setMinSize env b) = panelHas "bottomsheet-dragging" b)
  /\ (isDragging (state (setMidSize env b)) = isDragging (state b)
      /\ bodyClasses (dom (setMidSize env b)) = bodyClasses (dom b)
      /\ panelHas "bottomsheet-dragging" (setMidSize env b)
         = panelHas "bottomsheet-dragging" b)
  /\ (isDragging (state (setMaxSize env b)) = isDragging (state b)
      /\ bodyClasses (dom (setMaxSize env b)) = bodyClasses (dom b)
      /\ panelHas "bottomsheet-dragging" (setMaxSize env b)
         = panelHas "bottomsheet-dragging" b).
Proof.
  unfold setMinSize, setMidSize, setMaxSize.
  destruct (isMobile env); classes; repeat split; reflexivity.
Qed.

Lemma presets_keep_dragging env b r' :
  r' = setMinSize env b \/ r' = setMidSize env b \/ r' = setMaxSize env b ->
  isDragging (state r') = isDragging (state b)
  /\ hasMoved (state r') = hasMoved (state b)
  /\ bodyClasses (dom r') = bodyClasses (dom b)
  /\ panelHas "bottomsheet-dragging" r' = panelHas "bottomsheet-dragging" b.
Proof.
  destruct (presets_keep env b) as ((A1 & A2 & A3) & (B1 & B2 & B3) & (C1 & C2 & C3)).
  intros [->|[->| ->]].
  - repeat split; try assumption. apply setMinSize_movement.
  - repeat split; try assumption. apply setMidSize_movement.
  - repeat split; try assumption. apply setMaxSize_movement.
Qed.

(** X13.  Whatever the gates decide, a release leaves no drag in progress;
    and a release that ends a drag clears [hasMoved] and takes
    [bottomsheet-dragging] off the panel and [select-none] and
    [overflow-hidden] off [document.body], whether or not it snaps. *)
Theorem X13_release_ends_the_drag env b :
  let b' := _onEnd env b in
  isDragging (state b') = false
  /\ (isDragging (state b) = true ->
      hasMoved (state b') = false
      /\ panelHas "bottomsheet-dragging" b' = false
      /\ bodyHas "select-none" b' = false
      /\ bodyHas "overflow-hidden" b' = false).
Proof.
  intros b'. subst b'. unfold _onEnd.
  destruct (isDragging (state b)) eqn:Hdrag; cbn [negb]; [|split; [exact Hdrag | discriminate]].
  set (released := bodyRemove "overflow-hidden"
                     (bodyRemove "select-none"
                        (panelRemove "bottomsheet-dragging"
                           (withState (setIsDragging false)
                              (withState (setHasMoved false) b))))).
  assert (Hrel : isDragging (state released) = false
                 /\ hasMoved (state released) = false
                 /\ panelHas "bottomsheet-dragging" released = false
                 /\ bodyHas "select-none" released = false
                 /\ bodyHas "overflow-hidden" released = false).
  { subst released. classes. repeat split; reflexivity. }
  assert (Hsnap : forall r,
             (isDragging (state r) = false
              /\ hasMoved (state r) = false
              /\ panelHas "bottomsheet-dragging" r = false
              /\ bodyHas "select-none" r = false
              /\ bodyHas "overflow-hidden" r = false) ->
             forall r', isDragging (state r') = isDragging (state r) ->
                        hasMoved (state r') = hasMoved (state r) ->
                        bodyClasses (dom r') = bodyClasses (dom r) ->
                        panelHas "bottomsheet-dragging" r' = panelHas "bottomsheet-dragging" r ->
             isDragging (state r') = false
             /\ (true = true ->
                 hasMoved (state r') = false
                 /\ panelHas "bottomsheet-dragging" r' = false
                 /\ bodyHas "select-none" r' = false
                 /\ bodyHas "overflow-hidden" r' = false)).
  { intros r (H1 & H2 & H3 & H4 & H5) r' E1 E2 E3 E4.
    unfold bodyHas in *. rewrite E1, E2, E3, E4. tauto. }
  destruct (negb (hasMoved (state b))); [apply (Hsnap released Hrel); reflexivity|].
  destruct (500 <? now env - dragStart (state b))%Z;
    [apply (Hsnap released Hrel); reflexivity|].
  assert (Hpreset : forall r r',
             (isDragging (state r) = false
              /\ hasMoved (state r) = false
              /\ panelHas "bottomsheet-dragging" r = false
              /\ bodyHas "select-none" r = false
              /\ bodyHas "overflow-hidden" r = false) ->
             r' = setMinSize env r \/ r' = setMidSize env r \/ r' = setMaxSize env r ->
             forall r'', (r'' = r' \/ r'' = contentRemove "overflow-hidden" r') ->
             isDragging (state r'') = false
             /\ (true = true ->
                 hasMoved (state r'') = false
                 /\ panelHas "bottomsheet-dragging" r'' = false
                 /\ bodyHas "select-none" r'' = false
                 /\ bodyHas "overflow-hidden" r'' = false)).
  { intros r r' Hr Hr' r'' Hr''.
    destruct (presets_keep_dragging env r r' Hr') as (E1 & E2 & E3 & E4).
    apply (Hsnap r Hr); destruct Hr'' as [->| ->]; assumption. }
  destruct (isMobile env).
  - unfold _onEndMobile.
    set (r := remeasureMinSize env released).
    assert (Hr : isDragging (state r) = false
                 /\ hasMoved (state r) = false
                 /\ panelHas "bottomsheet-dragging" r = false
                 /\ bodyHas "select-none" r = false
                 /\ bodyHas "overflow-hidden" r = false).
    { subst r. unfold remeasureMinSize. destruct (measuredMinSize env); exact Hrel. }
    repeat match goal with |- context [if ?c then _ else _] => destruct c end;
      (eapply (Hpreset r _ Hr); [|first [right; reflexivity | left; reflexivity]]);
      first [left; reflexivity | right; left; reflexivity | right; right; reflexivity].
  - unfold _onEndDesktop.
    set (r := withOptions (setMinSizeOpt 40) released).
    assert (Hr : isDragging (state r) = false
                 /\ hasMoved (state r) = false
                 /\ panelHas "bottomsheet-dragging" r = false
                 /\ bodyHas "select-none" r = false
                 /\ bodyHas "overflow-hidden" r = false) by exact Hrel.
    match goal with |- context [if ?c then _ else _] => destruct c end;
      (eapply (Hpreset r _ Hr); [|left; reflexivity]);
      first [left; reflexivity | right; right; reflexivity].
Qed.

(** X13 at work: the release of [dragUp]. *)
Lemma X13_release_ends_the_drag_witness :
  bodyHas "select-none" (_onEnd (phone 300 300) (run dragUp fresh)) = false.
Proof.
  exact (proj1 (proj2 (proj2 (proj2 (X13_release_ends_the_drag (phone 300 300)
                                       (run dragUp fresh)) eq_refl)))).
Defined.

(** ** BottomSheet.ts: opening, closing, minimizing *)

Lemma _updateSizeLimits_keeps env b :
  state (_updateSizeLimits env b) = state b
  /\ dom (_updateSizeLimits env b) = dom b
  /\ dispatched (_updateSizeLimits env b) = dispatched b.
Proof.
  unfold _updateSizeLimits, remeasureMinSize.
  destruct (isMobile env); [destruct (measuredMinSize env)|]; repeat split.
Qed.

Lemma _updateSizeLimits_options env b :
  maxSize (options (_updateSizeLimits env b))
  = (if isMobile env then containerClientHeight env * 0.95 else 500)
  /\ minSize (options (_updateSizeLimits env b))
     = (if isMobile env
        then match measuredMinSize env with
             | Some m => m
             | None => minSize (options b)
             end
        else 40).
Proof.
  unfold _updateSizeLimits, remeasureMinSize.
  destruct (isMobile env); [destruct (measuredMinSize env)|]; split; reflexivity.
Qed.

Lemma presets_options env b :
  options (setMinSize env b) = options b
  /\ options (setMidSize env b) = options b
  /\ options (setMaxSize env b) = options b.
Proof.
  unfold setMinSize, setMidSize, setMaxSize.
  destruct (isMobile env); repeat split.
Qed.

(** What [open] does once the limits are recomputed. *)
Lemma open_cases env b :
  let b1 := _updateSizeLimits env b in
  open env b
  = if isOpen (state b) && negb (isUpdating (state b))
    then setMidSize env b1
    else _dispatchEvent "bottomsheet:open"
           (showPanelContent
              (withDom (fun d => setWrapperHeight
                                   (option_map (fun _ => CssNone) (wrapperHeight d)) d)
                       b1)).
Proof.
  intros b1. subst b1. unfold open.
  now rewrite (proj1 (_updateSizeLimits_keeps env b)).
Qed.

(** X14.  [close] followed by [open] always re-opens: whatever the state
    before, the panel ends open, not minimized and not updating, with the
    class [bottomsheet-open], with neither inline height nor inline width,
    and the two calls dispatch [bottomsheet:close] and then
    [bottomsheet:open]. *)
Theorem X14_close_then_open_reopens env b :
  let b' := open env (close b) in
  isOpen (state b') = true /\ isMinimized (state b') = false
  /\ isUpdating (state b') = false
  /\ panelHas "bottomsheet-open" b' = true
  /\ styleHeight (dom b') = CssNone /\ styleWidth (dom b') = CssNone
  /\ dispatched b' = dispatched b ++ ["bottomsheet:close"; "bottomsheet:open"]%string.
Proof.
  intros b'. subst b'. rewrite open_cases. cbv zeta.
  change (isOpen (state (close b))) with false. cbn [andb].
  destruct (_updateSizeLimits_keeps env (close b)) as (Hs & Hd & He).
  classes. rewrite He. unfold close. fields. rewrite <- app_assoc.
  repeat split; reflexivity.
Qed.

Lemma open_is_open env b :
  isOpen (state (open env b)) = true /\ isUpdating (state (open env b)) = false.
Proof.
  rewrite open_cases. cbv zeta.
  destruct (isOpen (state b) && negb (isUpdating (state b))).
  - unfold setMidSize, setMaxSize. destruct (isMobile env); split; reflexivity.
  - split; reflexivity.
Qed.

(** X15.  A second [open] does not open again: calling [open] on a panel
    that the previous call was [open] snaps it, to mid-size on the vertical
    axis (inline height 50%, event [bottomsheet:midsize]) and to maximum
    size on the horizontal one (inline width 500px, event
    [bottomsheet:maxsize]); no second [bottomsheet:open] is dispatched. *)
Theorem X15_open_twice_snaps env1 env2 b :
  let b1 := open env1 b in
  let b2 := open env2 b1 in
  dispatched b2
  = dispatched b1 ++ [if isMobile env2 then "bottomsheet:midsize"%string
                      else "bottomsheet:maxsize"%string]
  /\ axisSize env2 b2 = (if isMobile env2 then CssPercent 50 else CssPx 500)
  /\ isMaximized (state b2) = negb (isMobile env2).
Proof.
  intros b1 b2. subst b2 b1. rewrite (open_cases env2). cbv zeta.
  destruct (open_is_open env1 b) as [-> ->]. cbn [andb negb].
  set (b1 := open env1 b).
  destruct (_updateSizeLimits_keeps env2 b1) as (Hs & Hd & He).
  pose proof (proj1 (_updateSizeLimits_options env2 b1)) as Hmax.
  unfold axisSize, setMidSize, setMaxSize.
  destruct (isMobile env2); fields; rewrite He, ?Hmax; repeat split; reflexivity.
Qed.

(** X16.  [updatePanel] on an open panel makes the next [open] a real
    opening again: the updating flag and the class [bottomsheet-updating]
    set by [updatePanel] are gone after [open], and the two calls dispatch
    [bottomsheet:updating] and then [bottomsheet:open]; on a panel that is
    not open [updatePanel] does nothing. *)
Theorem X16_update_then_open_reopens env b :
  (isOpen (state b) = true ->
   let b' := open env (updatePanel b) in
   isOpen (state b') = true /\ isUpdating (state b') = false
   /\ panelHas "bottomsheet-updating" b' = false
   /\ dispatched b'
      = dispatched b ++ ["bottomsheet:updating"; "bottomsheet:open"]%string)
  /\ (isOpen (state b) = false -> updatePanel b = b).
Proof.
  split.
  - intros Hopen b'. subst b'.
    assert (Hu : updatePanel b
                 = _dispatchEvent "bottomsheet:updating"
                     (withState (setIsUpdating true)
                        (panelAdd "bottomsheet-updating" b)))
      by (unfold updatePanel; now rewrite Hopen).
    rewrite open_cases. cbv zeta.
    destruct (_updateSizeLimits_keeps env (updatePanel b)) as (_ & Hd & He).
    replace (isOpen (state (updatePanel b)) && negb (isUpdating (state (updatePanel b))))
      with false by (rewrite Hu; cbn; now rewrite andb_false_r).
    unfold panelHas.
    cbn [state dom dispatched isOpen isUpdating panelClasses _dispatchEvent
         showPanelContent withState withDom setIsOpen setIsMinimized setIsUpdating
         setPanelClasses setStyleHeight setStyleWidth setWrapperHeight
         panelAdd panelRemove height width].
    rewrite He, Hu. classes. rewrite <- app_assoc.
    repeat split; reflexivity.
  - intros Hclosed. unfold updatePanel. now rewrite Hclosed.
Qed.

(** X16 at work: on a panel opened on the phone. *)
Lemma X16_update_then_open_reopens_witness :
  let b := open (phone 0 0) fresh in
  isUpdating (state (open (phone 10 300) (updatePanel b))) = false.
Proof.
  intros b.
  exact (proj1 (proj2 (proj1 (X16_update_then_open_reopens (phone 10 300) b) eq_refl))).
Defined.

(** X17.  [minimize] is idempotent: minimizing again, on whatever device,
    changes nothing and dispatches nothing. *)
Theorem X17_minimize_twice_is_minimize_once env1 env2 b :
  minimize env2 (minimize env1 b) = minimize env1 b.
Proof.
  assert (Hm : isMinimized (state (minimize env1 b)) = true
               \/ (negb (isOpen (state b)) || isMinimized (state b) = true
                   /\ minimize env1 b = b)).
  { unfold minimize.
    destruct (negb (isOpen (state b)) || isMinimized (state b)); [now right|].
    left. destruct (isMobile env1); reflexivity. }
  destruct Hm as [Hmin | [Hguard Hsame]].
  - unfold minimize at 1. now rewrite Hmin, orb_true_r.
  - rewrite Hsame. unfold minimize. now rewrite Hguard.
Qed.

Lemma classRemove_twice c l : classRemove c (classRemove c l) = classRemove c l.
Proof.
  unfold classRemove. induction l as [|x l IH]; [reflexivity|].
  cbn [filter]. destruct (negb (String.eqb c x)) eqn:E; cbn [filter].
  - now rewrite E, IH.
  - exact IH.
Qed.

(** X18.  [close] is idempotent except for its event: closing a closed
    panel changes no field and no class, and dispatches
    [bottomsheet:close] once more. *)
Theorem X18_close_twice_only_repeats_the_event b :
  close (close b) = _dispatchEvent "bottomsheet:close" (close b).
Proof.
  destruct b as [p o s [pc sh sw cc wh bc] t ev c].
  cbv beta iota delta
      [close _dispatchEvent withState width height panelRemove withDom
       setIsOpen setIsMinimized setStyleWidth setStyleHeight setPanelClasses
       panel options state dom holdTimer dispatched cleanups
       panelClasses styleHeight styleWidth contentClasses wrapperHeight bodyClasses
       startPoint startSize prevPoint lastDiff isDragging isOpen isMinimized
       isMaximized isUpdating dragStart hasMoved totalMovement].
  now rewrite classRemove_twice.
Qed.

(** X19.  [open] recomputes the bounds on every call, so bounds given to
    the constructor or left by an earlier call do not survive it: after
    [open], [maxSize] is 95% of the container's height on the vertical axis
    and 500 on the horizontal one, and [minSize] is 40 on the horizontal axis
    and, on the vertical one, the height of header plus drag handle when the
    panel has both, and what it was otherwise. *)
Theorem X19_open_recomputes_the_bounds env b :
  maxSize (options (open env b))
  = (if isMobile env then containerClientHeight env * 0.95 else 500)
  /\ minSize (options (open env b))
     = (if isMobile env
        then match measuredMinSize env with
             | Some m => m
             | None => minSize (options b)
             end
        else 40).
Proof.
  assert (Ho : options (open env b) = options (_updateSizeLimits env b)).
  { rewrite open_cases. cbv zeta.
    destruct (isOpen (state b) && negb (isUpdating (state b))).
    - exact (proj1 (proj2 (presets_options env (_updateSizeLimits env b)))).
    - reflexivity. }
  rewrite Ho. apply _updateSizeLimits_options.
Qed.

(** X20.  A click on the container counts as a click inside the panel, and
    is ignored, exactly when an element from its target up to the root has
    the id [bottomsheet]; any other click, a click without target included,
    closes the panel when [closeOnOverlayClick] is set and minimizes it
    otherwise. *)
Theorem X20_container_click env target b :
  onContainerClick env target b
  = if existsb (byId "bottomsheet") (lineage target) then b
    else if closeOnOverlayClick (options b) then close b
    else minimize env b.
Proof.
  unfold onContainerClick. destruct target as [t|]; cbn [lineage existsb].
  - now rewrite closest_lineage.
  - reflexivity.
Qed.

(** ** BottomSheet.ts: flags, classes and queries *)

Ltac coherence :=
  unfold classesCoherent in *;
  repeat match goal with
         | |- context [if ?c then _ else _] => destruct c
         | |- context [match ?x with Some _ => _ | None => _ end] => destruct x
         end;
  classes; intuition congruence.

Lemma showPanelContent_coherent b : classesCoherent (showPanelContent b).
Proof. coherence. Qed.

Lemma hidePanelContent_coherent b :
  classesCoherent b -> classesCoherent (hidePanelContent b).
Proof. intros H. coherence. Qed.

Lemma setMaxSize_coherent env b : classesCoherent (setMaxSize env b).
Proof. unfold setMaxSize. coherence. Qed.

Lemma setMidSize_coherent env b : classesCoherent (setMidSize env b).
Proof. unfold setMidSize, setMaxSize. coherence. Qed.

Lemma setMinSize_coherent env b :
  classesCoherent b -> classesCoherent (setMinSize env b).
Proof. intros H. unfold setMinSize. coherence. Qed.

(** The flags and the panel's classes are all a frame condition needs. *)
Lemma coherent_frame b b' :
  state b' = state b -> panelClasses (dom b') = panelClasses (dom b) ->
  classesCoherent b -> classesCoherent b'.
Proof.
  unfold classesCoherent, panelHas. now intros -> ->.
Qed.

Lemma _updateSizeLimits_coherent env b :
  classesCoherent b -> classesCoherent (_updateSizeLimits env b).
Proof.
  destruct (_updateSizeLimits_keeps env b) as (Hs & Hd & _).
  apply coherent_frame; [exact Hs | now rewrite Hd].
Qed.

Lemma open_coherent env b : classesCoherent (open env b).
Proof.
  rewrite open_cases. cbv zeta.
  destruct (isOpen (state b) && negb (isUpdating (state b))).
  - apply setMidSize_coherent.
  - coherence.
Qed.

Lemma close_coherent b : classesCoherent b -> classesCoherent (close b).
Proof. intros H. unfold close. coherence. Qed.

Lemma minimize_coherent env b : classesCoherent b -> classesCoherent (minimize env b).
Proof. intros H. unfold minimize. coherence. Qed.

Lemma updatePanel_coherent b : classesCoherent b -> classesCoherent (updatePanel b).
Proof. intros H. unfold updatePanel. coherence. Qed.

Lemma _onStart_coherent env e b :
  classesCoherent b -> classesCoherent (_onStart env e b).
Proof.
  intros H. unfold _onStart.
  match goal with |- context [if ?c then b else _] => destruct c end; [exact H|].
  destruct e; coherence.
Qed.

Lemma _onMove_coherent env e b :
  classesCoherent b -> classesCoherent (_onMove env e b).
Proof.
  intros H. unfold _onMove, _onMoveMobile, _onMoveDesktop, trackMovement.
  destruct e; coherence.
Qed.

Lemma remeasureMinSize_coherent env b :
  classesCoherent b -> classesCoherent (remeasureMinSize env b).
Proof. intros H. unfold remeasureMinSize. coherence. Qed.

Lemma contentRemove_coherent c b :
  classesCoherent b -> classesCoherent (contentRemove c b).
Proof. apply coherent_frame; reflexivity. Qed.

Lemma _onEnd_coherent env b :
  classesCoherent b -> classesCoherent (_onEnd env b).
Proof.
  intros H. unfold _onEnd.
  destruct (negb (isDragging (state b))); [exact H|].
  set (released := bodyRemove "overflow-hidden"
                     (bodyRemove "select-none"
                        (panelRemove "bottomsheet-dragging"
                           (withState (setIsDragging false)
                              (withState (setHasMoved false) b))))).
  assert (Hrel : classesCoherent released) by (subst released; coherence).
  clearbody released. clear H.
  destruct (negb (hasMoved (state b))); [exact Hrel|].
  destruct (500 <? now env - dragStart (state b))%Z; [exact Hrel|].
  destruct (isMobile env).
  - unfold _onEndMobile.
    pose proof (remeasureMinSize_coherent env released Hrel) as Hr.
    set (r := remeasureMinSize env released) in *. clearbody r.
    repeat match goal with |- context [if ?c then _ else _] => destruct c end;
      try apply contentRemove_coherent;
      lazymatch goal with
      | |- classesCoherent (setMidSize _ _) => apply setMidSize_coherent
      | |- classesCoherent (setMaxSize _ _) => apply setMaxSize_coherent
      | |- classesCoherent (setMinSize _ _) => apply setMinSize_coherent; exact Hr
      end.
  - unfold _onEndDesktop.
    assert (Hr : classesCoherent (withOptions (setMinSizeOpt 40) released))
      by (revert Hrel; apply coherent_frame; reflexivity).
    match goal with |- context [if ?c then _ else _] => destruct c end;
      lazymatch goal with
      | |- classesCoherent (setMaxSize _ _) => apply setMaxSize_coherent
      | |- classesCoherent (setMinSize _ _) => apply setMinSize_coherent; exact Hr
      end.
Qed.

Lemma step_coherent op b : classesCoherent b -> classesCoherent (step op b).
Proof.
  intros H. destruct op; cbn [step].
  - apply open_coherent.
  - now apply close_coherent.
  - now apply minimize_coherent.
  - now apply updatePanel_coherent.
  - now apply setMinSize_coherent.
  - apply setMidSize_coherent.
  - apply setMaxSize_coherent.
  - exact H.
  - unfold Helpers.fire. destruct (holdTimer b) as [e|]; [|exact H].
    apply (_onStart_coherent env e) in H. exact H.
  - apply _onEnd_coherent. exact H.
  - now apply _onMove_coherent.
  - now apply _onEnd_coherent.
  - unfold onContainerClick.
    repeat match goal with |- context [if ?c then _ else _] => destruct c end.
    + exact H.
    + now apply close_coherent.
    + now apply minimize_coherent.
  - now apply close_coherent.
  - destruct (cleanups b); [exact H|]. revert H. unfold classesCoherent. classes. intuition congruence.
  - unfold _adjustContentHeight.
    destruct (negb (isMobile env) || isUpdating (state b)); [exact H|].
    destruct (wrapperHeight (dom b)); exact H.
Qed.

Lemma run_coherent ops b : classesCoherent b -> classesCoherent (run ops b).
Proof.
  intros H. induction ops as [|op ops IH] using rev_ind; [exact H|].
  rewrite run_snoc. now apply step_coherent.
Qed.

(** X21.  The state flags are backed by the panel's classes in every state
    the controller can reach from its construction, over whatever document:
    an open panel carries [bottomsheet-open], a minimized one
    [bottomsheet-minimized], an updating one [bottomsheet-updating]. *)
Theorem X21_flags_are_backed_by_classes panelId arg d ops :
  let b := run ops (constructor panelId arg d) in
  (isOpen (state b) = true -> panelHas "bottomsheet-open" b = true)
  /\ (isMinimized (state b) = true -> panelHas "bottomsheet-minimized" b = true)
  /\ (isUpdating (state b) = true -> panelHas "bottomsheet-updating" b = true).
Proof.
  apply run_coherent. unfold classesCoherent. cbn. repeat split; discriminate.
Qed.

(** X21 at work: after [dragDown] and its release the panel is open. *)
Lemma X21_flags_are_backed_by_classes_witness :
  panelHas "bottomsheet-open" (run (dragDown ++ [PanelUp (phone 300 500)]) fresh) = true.
Proof.
  exact (proj1 (X21_flags_are_backed_by_classes 1%nat (mkOptionsArg None None None)
                  emptyDom (dragDown ++ [PanelUp (phone 300 500)])) eq_refl).
Defined.

(** X22.  In every state the controller can reach, the query [isMaximized()]
    answers true only when [isOpen()] does and [isMinimized()] does not;
    [isOpen()] and [isMinimized()] never both answer true. *)
Theorem X22_queries_agree panelId arg d ops :
  let b := run ops (constructor panelId arg d) in
  (Query.isMaximized b = true -> Query.isOpen b = true /\ Query.isMinimized b = false)
  /\ Query.isOpen b && Query.isMinimized b = false.
Proof.
  intros b.
  assert (Hex : flagsExclusive b) by (apply run_flagsExclusive; reflexivity).
  unfold flagsExclusive in Hex.
  unfold Query.isMaximized, Query.isOpen, Query.isMinimized.
  destruct (isOpen (state b)), (isMaximized (state b)), (isMinimized (state b));
    cbn in *; repeat split; congruence.
Qed.

(** X22 at work: right after [setMaxSize]. *)
Lemma X22_queries_agree_witness :
  Query.isOpen (run [SetMaxSize (phone 0 0)] fresh) = true.
Proof.
  exact (proj1 (proj1 (X22_queries_agree 1%nat (mkOptionsArg None None None) emptyDom
                         [SetMaxSize (phone 0 0)]) eq_refl)).
Defined.

(** X23.  [close] does not clear the maximized flag: after [setMaxSize],
    [close] and [open], the query [isMaximized()] answers true although the
    panel has neither inline height nor inline width and the last event is
    [bottomsheet:open]. *)
Theorem X23_maximized_flag_survives_close env1 env2 b :
  let b' := open env2 (close (setMaxSize env1 b)) in
  Query.isMaximized b' = true
  /\ styleHeight (dom b') = CssNone /\ styleWidth (dom b') = CssNone
  /\ last (dispatched b') ""%string = "bottomsheet:open"%string.
Proof.
  intros b'. subst b'. rewrite open_cases. cbv zeta.
  change (isOpen (state (close (setMaxSize env1 b)))) with false. cbn [andb].
  unfold Query.isMaximized. fields.
  destruct (_updateSizeLimits_keeps env2 (close (setMaxSize env1 b))) as (-> & _ & _).
  rewrite last_last.
  change (isMaximized (state (close (setMaxSize env1 b))))
    with (isMaximized (state (setMaxSize env1 b))).
  rewrite (proj2 (setMaxSize_flags env1 b)). repeat split.
Qed.

(** X24.  The clean-up that a snap to mid-size or to minimum schedules on
    the vertical axis is not cancelled by a later snap: after [setMidSize]
    and then [setMaxSize], when the clean-up runs, the panel is maximized,
    with [maxSize] as its inline height, and has lost the class
    [bottomsheet-full]. *)
Theorem X24_pending_cleanup_strips_full_class env b :
  isMobile env = true ->
  let b' := run [SetMidSize env; SetMaxSize env; CleanupTimeout] b in
  isMaximized (state b') = true
  /\ styleHeight (dom b') = CssPx (maxSize (options b))
  /\ panelHas "bottomsheet-full" (run [SetMidSize env; SetMaxSize env] b) = true
  /\ panelHas "bottomsheet-full" b' = false.
Proof.
  intros Hmob b'. subst b'. unfold run. cbn [fold_left step].
  unfold setMaxSize, setMidSize. rewrite Hmob. classes. repeat split; reflexivity.
Qed.

(** X24 at work: on the phone, from a fresh controller. *)
Lemma X24_pending_cleanup_strips_full_class_witness :
  panelHas "bottomsheet-full"
    (run [SetMidSize (phone 0 0); SetMaxSize (phone 0 0); CleanupTimeout] fresh) = false.
Proof.
  exact (proj2 (proj2 (proj2 (X24_pending_cleanup_strips_full_class (phone 0 0) fresh
                                eq_refl)))).
Defined.

(** ** BottomSheet.ts: [on] and [off] *)

Section ListenerFacts.

Variables Handler ListenerOptions : Type.

Lemma truthy_named t : t <> ""%string -> truthy (Some t) = Some t.
Proof.
  intros Hne. unfold truthy.
  destruct (String.eqb_spec t "") as [->|_]; [contradiction | reflexivity].
Qed.

(** X25.  [off] with a non-empty type detaches and forgets exactly the
    registrations of that type, in the order they were made, and keeps the
    others, in order; [off] without argument, and also [off("")], detaches
    and forgets everything.  A registration made by [on] is the last one
    detached by [off] of its type and is untouched by [off] of any other
    non-empty type. *)
Theorem X25_off_detaches_by_type (t : string)
  (registered : list (Sheet.Registration Handler ListenerOptions)) :
  t <> ""%string ->
  (forall r, In r (fst (off (Some t) registered))
             <-> In r registered /\ regType r = t)
  /\ (forall r, In r (snd (off (Some t) registered))
                <-> In r registered /\ regType r <> t)
  /\ (length (fst (off (Some t) registered)) + length (snd (off (Some t) registered))
      = length registered)%nat
  /\ off None registered = (registered, [])
  /\ off (Some ""%string) registered = (registered, [])
  /\ (forall h o,
        off (Some t) (on t h o registered)
        = (fst (off (Some t) registered) ++ [mkRegistration t h o],
           snd (off (Some t) registered)))
  /\ (forall t' h o, t' <> t ->
        off (Some t) (on t' h o registered)
        = (fst (off (Some t) registered),
           snd (off (Some t) registered) ++ [mkRegistration t' h o])).
Proof.
  intros Hne. unfold off. rewrite (truthy_named t Hne). cbn [fst snd truthy].
  split; [|split; [|split; [|split; [|split; [|split]]]]].
  - intros r. rewrite filter_In. now rewrite String.eqb_eq.
  - intros r. rewrite filter_In, negb_true_iff. now rewrite String.eqb_neq.
  - induction registered as [|x l IH]; [reflexivity|]. cbn [filter].
    destruct (String.eqb (regType x) t); cbn [negb length]; lia.
  - reflexivity.
  - reflexivity.
  - intros h o. unfold on. rewrite !filter_app. cbn [filter regType].
    rewrite String.eqb_refl. cbn [negb]. now rewrite app_nil_r.
  - intros t' h o Hne'. unfold on. rewrite !filter_app. cbn [filter regType].
    destruct (String.eqb_spec t' t) as [->|_]; [contradiction|]. cbn [negb].
    now rewrite app_nil_r.
Qed.

End ListenerFacts.

(** X25 at work: two click handlers and one open handler, then
    [off("click")]. *)
Lemma X25_off_detaches_by_type_witness :
  off (Some "click"%string)
      (on "click" 3%nat tt (on "bottomsheet:open" 2%nat tt (on "click" 1%nat tt [])))
  = ([mkRegistration "click" 1%nat tt; mkRegistration "click" 3%nat tt],
     [mkRegistration "bottomsheet:open" 2%nat tt]).
Proof.
  assert (Hne : "click"%string <> ""%string) by discriminate.
  exact (proj1 (proj2 (proj2 (proj2 (proj2 (proj2
           (X25_off_detaches_by_type nat unit "click"
              (on "bottomsheet:open" 2%nat tt (on "click" 1%nat tt [])) Hne))))))
           3%nat tt).
Defined.

(** ** BottomSheet.ts: [minimize] and the minimum preset *)

(** X26.  On an open panel that is not minimized, [minimize] and
    [setMinSize] leave the same flags, the same classes, the same inline
    size (on the vertical axis [minSize] pixels of height, on the horizontal
    one no inline width) and the same bounds; they differ in the event they
    dispatch, [bottomsheet:minimized] against [bottomsheet:minsize], and in
    that only [setMinSize] schedules a class clean-up on the vertical axis. *)
Theorem X26_minimize_matches_the_minimum_preset env b :
  isOpen (state b) = true -> isMinimized (state b) = false ->
  state (minimize env b) = state (setMinSize env b)
  /\ dom (minimize env b) = dom (setMinSize env b)
  /\ options (minimize env b) = options (setMinSize env b)
  /\ axisSize env (minimize env b)
     = (if isMobile env then CssPx (minSize (options b)) else CssNone)
  /\ dispatched (minimize env b) = dispatched b ++ ["bottomsheet:minimized"%string]
  /\ dispatched (setMinSize env b) = dispatched b ++ ["bottomsheet:minsize"%string]
  /\ cleanups (minimize env b) = cleanups b
  /\ cleanups (setMinSize env b)
     = (if isMobile env then S (cleanups b) else cleanups b).
Proof.
  intros Hopen Hmin. unfold minimize, setMinSize, axisSize.
  rewrite Hopen, Hmin. cbn [negb orb].
  destruct (isMobile env); repeat split; reflexivity.
Qed.

(** X26 at work: on the panel opened on the phone. *)
Lemma X26_minimize_matches_the_minimum_preset_witness :
  dom (minimize (phone 10 300) (open (phone 0 0) fresh))
  = dom (setMinSize (phone 10 300) (open (phone 0 0) fresh)).
Proof.
  exact (proj1 (proj2 (X26_minimize_matches_the_minimum_preset (phone 10 300)
                         (open (phone 0 0) fresh) eq_refl eq_refl))).
Defined.
